(** * corefit: 3-D bi-Maxwellian fit of Helios proton distributions

    A shallow embedding of [src/fitting/proton_core_3D.py] and the
    properties of its fit driver [iondistfitting].

    Numbers are IEEE binary64 values (Rocq's primitive [float]), as numpy's
    and Python's are, so that [np.nan] and the comparisons that are false on
    it are the ones the program sees.  Python dictionaries are [gmap string
    pyval]; exceptions are the [Raise] results of a small error monad. *)

From Stdlib Require Import ZArith List Bool Floats.
From stdpp Require Import gmap strings list fin_maps.
Import ListNotations.

Set Warnings "-inexact-float".

(** ** Python values, exceptions *)

(** The objects that end up in an output record, or can be handed to
    [return_nans].  A [datetime] is its number of microseconds. *)
Inductive pyval : Type :=
  | PyInt (z : Z)
  | PyFloat (f : float)
  | PyBool (b : bool)
  | PyStr (s : string)
  | PyNone
  | PyDatetime (us : Z).

Inductive exn : Type :=
  | AssertionError (msg : string)
  | ValueError
  | NameError.

Inductive result (A : Type) : Type :=
  | Ok (a : A)
  | Raise (e : exn).
Arguments Ok {A} a.
Arguments Raise {A} e.

#[global] Instance result_ret : MRet result := fun A a => Ok a.

#[global] Instance result_bind : MBind result := fun A B k r =>
  match r with
  | Ok a => k a
  | Raise e => Raise e
  end.

(** An output record: a Python [dict] with string keys. *)
Abbreviation record := (gmap string pyval).

(** [np.nan] as a dictionary value, and the test for it. *)
Definition py_nan : pyval := PyFloat nan.

Definition is_missing (v : pyval) : bool :=
  match v with
  | PyFloat f => is_nan f
  | _ => false
  end.

(** ** numpy and pandas reductions

    [np.max] and [np.min] of an array propagate NaN and raise [ValueError] on
    an empty array; the pandas [Series.max]/[Series.min] skip NaN and give
    NaN on an empty series.  Sums run left to right. *)
Module Np.

Definition maximum (a b : float) : float :=
  if is_nan a then a else if is_nan b then b
  else if (a <? b)%float then b else a.

Definition minimum (a b : float) : float :=
  if is_nan a then a else if is_nan b then b
  else if (b <? a)%float then b else a.

Definition max (a : list float) : result float :=
  match a with
  | [] => Raise ValueError
  | x :: t => Ok (fold_left maximum t x)
  end.

Definition min (a : list float) : result float :=
  match a with
  | [] => Raise ValueError
  | x :: t => Ok (fold_left minimum t x)
  end.

(** The same on an integer array (the energy-bin index). *)
Definition max_int (a : list Z) : result Z :=
  match a with
  | [] => Raise ValueError
  | x :: t => Ok (fold_left Z.max t x)
  end.

Definition min_int (a : list Z) : result Z :=
  match a with
  | [] => Raise ValueError
  | x :: t => Ok (fold_left Z.min t x)
  end.

Definition sum (a : list float) : float :=
  fold_left PrimFloat.add a 0%float.

Definition of_nat (n : nat) : float :=
  of_uint63 (Uint63.of_Z (Z.of_nat n)).

Definition mean (a : list float) : float :=
  (sum a / of_nat (length a))%float.

(** [np.std]: the root of the mean squared deviation from the mean. *)
Definition std (a : list float) : float :=
  let mu := mean a in
  sqrt (mean (map (fun x => (abs (x - mu) * abs (x - mu))%float) a)).

Definition isfinite (x : float) : bool :=
  negb (is_nan x) && negb (is_infinity x).

End Np.

Module Pd.

(** [Series.max()] and [Series.min()], with [skipna=True]. *)
Definition series_max (s : list float) : float :=
  fold_left (fun acc x =>
               if is_nan x then acc
               else if is_nan acc then x
               else if (acc <? x)%float then x else acc) s nan.

Definition series_min (s : list float) : float :=
  fold_left (fun acc x =>
               if is_nan x then acc
               else if is_nan acc then x
               else if (x <? acc)%float then x else acc) s nan.

(** [Series.argmax()], which in the pandas of this code is [idxmax]: the
    index label of the first largest value, NaN counting as minus
    infinity; NaN when every value is NaN; [ValueError] on an empty
    series.  A series is its list of (label, value). *)
Definition fill (x : float) : float :=
  if is_nan x then neg_infinity else x.

Fixpoint first_max (best : float * float) (s : list (float * float))
  : float * float :=
  match s with
  | [] => best
  | (l, x) :: t =>
      if (snd best <? fill x)%float then first_max (l, fill x) t
      else first_max best t
  end.

Definition idxmax (s : list (float * float)) : result float :=
  match s with
  | [] => Raise ValueError
  | (l, x) :: t =>
      if forallb (fun p => is_nan (snd p)) s then Ok nan
      else Ok (fst (first_max (l, fill x) t))
  end.

(** [len(index.unique())]: the number of distinct labels. *)
Definition nunique (l : list Z) : nat :=
  length (nodup Z.eq_dec l).

End Pd.

(** ** Vectors and 3 x 3 matrices *)

Record vec3 : Type := V3 { c0 : float; c1 : float; c2 : float }.
Record mat3 : Type := M3 { row0 : vec3; row1 : vec3; row2 : vec3 }.

Definition component (i : nat) (v : vec3) : float :=
  match i with
  | O => c0 v
  | S O => c1 v
  | _ => c2 v
  end.

Definition dot3 (a b : vec3) : float :=
  (c0 a * c0 b + c1 a * c1 b + c2 a * c2 b)%float.

(** [np.dot(R, v)] and [R.T]. *)
Definition mat_vec (R : mat3) (v : vec3) : vec3 :=
  V3 (dot3 (row0 R) v) (dot3 (row1 R) v) (dot3 (row2 R) v).

Definition transpose (R : mat3) : mat3 :=
  M3 (V3 (c0 (row0 R)) (c0 (row1 R)) (c0 (row2 R)))
     (V3 (c1 (row0 R)) (c1 (row1 R)) (c1 (row2 R)))
     (V3 (c2 (row0 R)) (c2 (row1 R)) (c2 (row2 R))).

(** [np.linalg.norm] of a vector. *)
Definition norm3 (v : vec3) : float := sqrt (dot3 v v).

(** A column [a[:, i]] of an n x 3 array. *)
Definition column (i : nat) (a : list vec3) : list float :=
  map (component i) a.

(** [np.mean(a, axis=0)] and [np.std(a, axis=0)] of an n x 3 array. *)
Definition mean_axis0 (a : list vec3) : vec3 :=
  V3 (Np.mean (column 0 a)) (Np.mean (column 1 a)) (Np.mean (column 2 a)).

Definition std_axis0 (a : list vec3) : vec3 :=
  V3 (Np.std (column 0 a)) (Np.std (column 1 a)) (Np.std (column 2 a)).

(** ** Inputs of the driver *)

(** A row of the 3-D distribution: the index levels, the raw count, the
    speed ['|v|'], the distribution function ['pdf'] and the velocity. *)
Record sample : Type := {
  E_bin : Z;
  El : Z;
  Az : Z;
  counts : Z;
  abs_v : float;
  pdf : float;
  vx : float;
  vy : float;
  vz : float
}.

(** A row of the 1-D distribution [I1a]: its index label, which is what
    [argmax] answers with, and the columns ['v'] and ['df']. *)
Record row_1D : Type := { label_1D : float; v_1D : float; df_1D : float }.

(** The 1-D fit summary [fit_1D]. *)
Record fit_1D_summary : Type := { status_1D : Z; T_p : float }.

(** The distribution parameters [params]. *)
Record dist_params : Type := {
  ion_instrument : Z;
  helios_vr : float;
  helios_v : float
}.

(** A row of a magnetic field series: its time stamp (microseconds) and the
    field vector. *)
Record mag_row : Type := { mag_time : Z; Bx : float; By : float; Bz : float }.

(** The six fit parameters [fitparams[0..5]]. *)
Record params6 : Type := P6 {
  p_A : float;
  p_vth_perp : float;
  p_vth_par : float;
  p_vbx : float;
  p_vby : float;
  p_vbz : float
}.

(** [timedelta(seconds=n)] in microseconds. *)
Definition seconds (n : Z) : Z := (n * 1000000)%Z.

(** ** [return_nans] *)

Definition return_nans (status time instrument : pyval) : result record :=
  match status with
  | PyInt _ =>
      Ok (<["sigma B" := py_nan]>
         (<["Bz" := py_nan]>
         (<["By" := py_nan]>
         (<["Bx" := py_nan]>
         (<["B instrument" := py_nan]>
         (<["Instrument" := instrument]>
         (<["Status" := status]>
         (<["Time" := time]>
         (<["vp_z" := py_nan]>
         (<["vp_y" := py_nan]>
         (<["vp_x" := py_nan]>
         (<["Tp_par" := py_nan]>
         (<["Tp_perp" := py_nan]>
         (<["vth_p_par" := py_nan]>
         (<["vth_p_perp" := py_nan]>
         (<["n_p" := py_nan]> ∅))))))))))))))))
  | _ => Raise (AssertionError "Status code must be an integer")
  end.

(** What [process_fitparams] returns: the integer 4, or the dictionary of
    fitted quantities. *)
Inductive fit_result : Type :=
  | FitInt (z : Z)
  | FitDict (d : record).

(** The local variables of [iondistfitting] once [opt.leastsq] has
    returned (source line 186), as far as the rest of the function reads
    them.  [l_R] is [None] while the name [R] is unbound. *)
Record locals : Type := {
  l_output : record;
  l_instrument : Z;
  l_starttime : Z;
  l_params : dist_params;
  l_vs : list vec3;
  l_df : list float;
  l_magempty : bool;
  l_R : option mat3;
  l_fitparams : params6;
  l_fitstatus : Z
}.

(** ** The driver *)

Section Driver.

(** What the driver calls and this repository's sources do not hold:
    [helpers.rotationmatrix], [heliopy.plasma.temp2vth] and [vth2temp],
    [heliopy.constants.m_p], [numpy.power], and the run of
    [scipy.optimize.leastsq] on the residuals of [bi_maxwellian_3D], from
    the initial guesses and the arrays [vprime] and [df] to the fitted
    parameters [fitout[0]] and the solver's status [fitout[4]].  They are
    functions here: the solver raises only on fewer residuals than
    parameters, which the gate on the number of samples excludes. *)
Variable rotationmatrix : vec3 -> mat3.
Variable temp2vth : float -> float -> float.
Variable vth2temp : float -> float -> float.
Variable m_p : float.
Variable np_power : float -> float -> float.
Variable leastsq : params6 -> list vec3 -> list float -> params6 * Z.

Definition np_pi : float := 3.141592653589793%float.

(** *** Pre-fit gates (source lines 76-100) *)

(** [fit_1D['status'] == 9] *)
Definition two_distributions (fit_1D : fit_1D_summary) : bool :=
  (status_1D fit_1D =? 9)%Z.

(** [(dist['counts'] < 0).any()] *)
Definition negative_counts (dist : list sample) : bool :=
  existsb (fun r => (counts r <? 0)%Z) dist.

(** [dist[dist['|v|'] <= I1a['v'].max() * 1e3]] *)
Definition truncate (dist : list sample) (I1a : list row_1D) : list sample :=
  let bound := (Pd.series_max (map v_1D I1a) * 1e3)%float in
  List.filter (fun r => (abs_v r <=? bound)%float) dist.

(** [dist.shape[0] <= 6], on the truncated distribution *)
Definition too_few_points (dist : list sample) : bool :=
  (length dist <=? 6)%nat.

(** [phi_bins < 3 or theta_bins < 3] *)
Definition too_few_bins (dist : list sample) : bool :=
  let phi_bins := Pd.nunique (map Az dist) in
  let theta_bins := Pd.nunique (map El dist) in
  (phi_bins <? 3)%nat || (theta_bins <? 3)%nat.

(** [len(I1a) != 0] and [vs_3D.min() > I1a['df'].argmax()] *)
Definition peak_absent (dist : list sample) (I1a : list row_1D)
  : result bool :=
  let vs_3D := map (fun r => (abs_v r / 1e3)%float) dist in
  if negb (length I1a =? 0)%nat then
    peak ← Pd.idxmax (map (fun r => (label_1D r, df_1D r)) I1a);
    mret (peak <? Pd.series_min vs_3D)%float
  else mret false.

(** *** The measurement window and the field (source lines 102-157) *)

(** Lines 103-105: the times between which the distribution was
    measured, one second for each energy bin. *)
Definition measurement_window (starttime : Z) (dist : list sample)
  : result (Z * Z) :=
  let E_bins := map E_bin dist in
  first_bin ← Np.min_int E_bins;
  let dist_starttime := (starttime + seconds first_bin)%Z in
  last_bin ← Np.max_int E_bins;
  let dist_endtime := (starttime + seconds (last_bin + 1))%Z in
  mret (dist_starttime, dist_endtime).

Definition in_window (t0 t1 : Z) (r : mag_row) : bool :=
  (t0 <? mag_time r)%Z && (mag_time r <? t1)%Z.

Definition is_empty {A} (l : list A) : bool :=
  match l with
  | [] => true
  | _ => false
  end.

(** Lines 113-134: the series the field is taken from.  The result is the
    value of [mag] ([None] while the name is unbound), [magempty], and
    the output with its ['B instrument'] entry. *)
Definition select_field (mag4hz mag6s : option (list mag_row))
    (dist_starttime dist_endtime : Z) (output : record)
  : option (list mag_row) * bool * record :=
  let '(mag, magempty) :=
    match mag4hz with
    | None => (None, true)
    | Some m =>
        let mag := List.filter (in_window dist_starttime dist_endtime) m in
        (Some mag, is_empty mag)
    end in
  match magempty, mag6s with
  | true, Some m =>
      let mag := List.filter (in_window dist_starttime dist_endtime) m in
      let magempty := is_empty mag in
      if magempty
      then (Some mag, magempty, <["B instrument" := py_nan]> output)
      else (Some mag, magempty, <["B instrument" := PyInt 2]> output)
  | _, _ => (mag, magempty, <["B instrument" := PyInt 1]> output)
  end.

Definition field_vectors (mag : list mag_row) : list vec3 :=
  map (fun r => V3 (Bx r) (By r) (Bz r)) mag.

(** Lines 136-157: the mean field and its spread go to the output and the
    velocities are rotated; without a field they stay as they are.  The
    result is the output, [R] and [vprime]. *)
Definition field_frame (mag : option (list mag_row)) (magempty : bool)
    (vs : list vec3) (output : record)
  : result (record * option mat3 * list vec3) :=
  if negb magempty then
    match mag with
    | None => Raise NameError
    | Some rows =>
        let mag := field_vectors rows in
        let B := mean_axis0 mag in
        let sigmaB := norm3 (std_axis0 mag) in
        let output := <["Bx" := PyFloat (c0 B)]> output in
        let output := <["By" := PyFloat (c1 B)]> output in
        let output := <["Bz" := PyFloat (c2 B)]> output in
        let output := <["sigma B" := PyFloat sigmaB]> output in
        let R := rotationmatrix B in
        let vprime := map (mat_vec R) vs in
        mret (output, Some R, vprime)
    end
  else
    let output := <["Bx" := py_nan]> output in
    let output := <["By" := py_nan]> output in
    let output := <["Bz" := py_nan]> output in
    let output := <["sigma B" := py_nan]> output in
    mret (output, None, vs).

(** Line 111: [dist[['vx', 'vy', 'vz']].values / 1e3] *)
Definition velocities (dist : list sample) : list vec3 :=
  map (fun r => V3 (vx r / 1e3) (vy r / 1e3) (vz r / 1e3))%float dist.

(** *** Initial guesses (source lines 159-172) *)

Definition weighted_mean (df : list float) (v : list float) : float :=
  (Np.sum (zip_with PrimFloat.mul df v) / Np.sum df)%float.

Definition initial_guesses (df : list float) (vprime : list vec3)
    (fit_1D : fit_1D_summary) : result params6 :=
  Ap_guess ← Np.max df;
  let vp_guess0 := weighted_mean df (column 0 vprime) in
  let vp_guess1 := weighted_mean df (column 1 vprime) in
  let vp_guess2 := weighted_mean df (column 2 vprime) in
  let vthp_guess := temp2vth (T_p fit_1D) m_p in
  let vthp_guess :=
    if negb (Np.isfinite vthp_guess)
       || (vthp_guess <? 10)%float || (100 <? vthp_guess)%float
    then 40%float else vthp_guess in
  mret (P6 Ap_guess vthp_guess vthp_guess vp_guess0 vp_guess1 vp_guess2).

(** *** Up to the return of the solver (source lines 73-185)

    The result is the record of an early return, or the local
    variables the rest of the function goes on with. *)
Definition iondistfitting_setup (dist : list sample) (params : dist_params)
    (fit_1D : fit_1D_summary) (mag4hz mag6s : option (list mag_row))
    (starttime : Z) (I1a : list row_1D)
  : result (record + locals) :=
  let output : record := ∅ in
  let instrument := ion_instrument params in
  let output := <["Instrument" := PyInt instrument]> output in
  let reject (status : Z) : result (record + locals) :=
    r ← return_nans (PyInt status) (PyDatetime starttime)
                    (PyInt instrument);
    mret (inl r) in
  if two_distributions fit_1D then reject 9%Z
  else if negative_counts dist then reject 9%Z
  else
    let dist := truncate dist I1a in
    if too_few_points dist then reject 5%Z
    else if too_few_bins dist then reject 12%Z
    else
      no_peak ← peak_absent dist I1a;
      if no_peak : bool then reject 10%Z
      else
        '(dist_starttime, dist_endtime) ←
          measurement_window starttime dist;
        let df := map pdf dist in
        let vs := velocities dist in
        let '(mag, magempty, output) :=
          select_field mag4hz mag6s dist_starttime dist_endtime output in
        '(output, R, vprime) ← field_frame mag magempty vs output;
        guesses ← initial_guesses df vprime fit_1D;
        let fitout := leastsq guesses vprime df in
        mret (inr {| l_output := output;
                     l_instrument := instrument;
                     l_starttime := starttime;
                     l_params := params;
                     l_vs := vs;
                     l_df := df;
                     l_magempty := magempty;
                     l_R := R;
                     l_fitparams := fst fitout;
                     l_fitstatus := snd fitout |}).

(** *** After the solver (source lines 187-274) *)

(** [fitstatus in (1, 2, 3, 4)] *)
Definition converged (fitstatus : Z) : bool :=
  existsb (Z.eqb fitstatus) [1; 2; 3; 4]%Z.

(** Lines 193-195:
    [(fitparams[0] > 20 * np.max(df) or fitparams[0] < 0.1 * np.max(df))
     and not magempty] *)
Definition density_unrealistic (fitparams : params6) (df : list float)
    (magempty : bool) : result bool :=
  peak ← Np.max df;
  mret (((20 * peak <? p_A fitparams)%float
         || (p_A fitparams <? 0.1 * peak)%float)
        && negb magempty).

(** Lines 198-200:
    [(fitparams[1] < 5 or fitparams[2] < 5) and not magempty] *)
Definition width_unrealistic (fitparams : params6) (magempty : bool)
  : bool :=
  ((p_vth_perp fitparams <? 5)%float || (p_vth_par fitparams <? 5)%float)
  && negb magempty.

(** The loop of lines 215-219 over the axes [i] still to visit: [true]
    when it returns 4. *)
Fixpoint outside_bounds (v : vec3) (vs : list vec3) (axes : list nat)
  : result bool :=
  match axes with
  | [] => mret false
  | i :: rest =>
      lo ← Np.min (column i vs);
      if (component i v <? lo)%float then mret true
      else
        hi ← Np.max (column i vs);
        if (hi <? component i v)%float then mret true
        else
          slowest ← Np.min (map norm3 vs);
          if (norm3 v <? slowest)%float then mret true
          else outside_bounds v vs rest
  end.

(** Lines 204-211: the fitted bulk velocity [v], and [fitparams] with
    its thermal speeds overwritten when there is no field. *)
Definition spacecraft_frame (magempty : bool) (R : option mat3)
    (fitparams : params6) : result (params6 * vec3) :=
  let v := V3 (p_vbx fitparams) (p_vby fitparams) (p_vbz fitparams) in
  if magempty then
    (* fitparams[1:3] = np.nan *)
    mret (P6 (p_A fitparams) nan nan
             (p_vbx fitparams) (p_vby fitparams) (p_vbz fitparams), v)
  else
    match R with
    | None => Raise NameError
    | Some R => mret (fitparams, mat_vec (transpose R) v)
    end.

(** Lines 221-250: the dictionary of the fitted quantities, from the
    parameters and the spacecraft-frame velocity. *)
Definition fit_dictionary (params : dist_params) (fitparams : params6)
    (v : vec3) (species : string) : record :=
  let vth_perp := abs (p_vth_perp fitparams) in
  let vth_par := abs (p_vth_par fitparams) in
  let fit_dict : record :=
    <["vth_" +:+ species +:+ "_par" := PyFloat vth_par]>
      (<["vth_" +:+ species +:+ "_perp" := PyFloat vth_perp]> ∅) in
  let m := m_p in
  let fit_dict :=
    <["T" +:+ species +:+ "_perp" := PyFloat (vth2temp vth_perp m)]>
      fit_dict in
  let fit_dict :=
    <["T" +:+ species +:+ "_par" := PyFloat (vth2temp vth_par m)]>
      fit_dict in
  let n := (p_A fitparams * np_power np_pi 1.5
            * abs (p_vth_perp fitparams) * 1e3
            * abs (p_vth_perp fitparams) * 1e3
            * abs (p_vth_par fitparams) * 1e3)%float in
  let n := (n * 1e-6)%float in
  let fit_dict := <["n_" +:+ species := PyFloat n]> fit_dict in
  let v_x := (c0 v + helios_vr params)%float in
  let v_y := (c1 v + helios_v params)%float in
  let v_z := c2 v in
  <["v" +:+ species +:+ "_z" := PyFloat v_z]>
    (<["v" +:+ species +:+ "_y" := PyFloat v_y]>
       (<["v" +:+ species +:+ "_x" := PyFloat v_x]> fit_dict)).

(** [process_fitparams], with the variables it closes over ([magempty],
    [R], [vs], [params]) as arguments. *)
Definition process_fitparams (magempty : bool) (R : option mat3)
    (vs : list vec3) (params : dist_params)
    (fitparams : params6) (species : string) : result fit_result :=
  '(fitparams, v) ← spacecraft_frame magempty R fitparams;
  outside ← outside_bounds v vs [0; 1; 2]%nat;
  if outside : bool then mret (FitInt 4)
  else mret (FitDict (fit_dictionary params fitparams v species)).

Definition iondistfitting_finish (l : locals) : result record :=
  let reject (status : Z) : result record :=
    return_nans (PyInt status) (PyDatetime (l_starttime l))
                (PyInt (l_instrument l)) in
  if negb (converged (l_fitstatus l)) then reject 6%Z
  else
    bad_density ←
      density_unrealistic (l_fitparams l) (l_df l) (l_magempty l);
    if bad_density : bool then reject 11%Z
    else if width_unrealistic (l_fitparams l) (l_magempty l)
    then reject 12%Z
    else
      fit_dict ← process_fitparams (l_magempty l) (l_R l) (l_vs l)
                                   (l_params l) (l_fitparams l) "p";
      match fit_dict with
      | FitInt status => reject status
      | FitDict fit_dict =>
          (* output.update(fit_dict) *)
          let output := fit_dict ∪ l_output l in
          let status := if l_magempty l then 2%Z else 1%Z in
          let output :=
            <["Instrument" := PyInt (l_instrument l)]>
              (<["Status" := PyInt status]>
                 (<["Time" := PyDatetime (l_starttime l)]> output)) in
          mret output
      end.

(** [iondistfitting(dist, params, fit_1D, mag4hz, mag6s, starttime, I1a,
    I1b, plotfigs)].  [I1b] is not read, and [plotfigs] only prints. *)
Definition iondistfitting (dist : list sample) (params : dist_params)
    (fit_1D : fit_1D_summary) (mag4hz mag6s : option (list mag_row))
    (starttime : Z) (I1a : list row_1D) : result record :=
  s ← iondistfitting_setup dist params fit_1D mag4hz mag6s starttime I1a;
  match s with
  | inl early => mret early
  | inr l => iondistfitting_finish l
  end.

End Driver.

(** ** A worked distribution

    Nine samples on a 3 x 3 grid of azimuth and elevation bins, measured
    over three energy bins, with a 1-D distribution whose peak lies above
    the slowest sample, and a steady field along +z. *)
Module Example.

(** Modelled from the spec: [heliopy.plasma.vth2temp] and [temp2vth], the
    ideal-gas relation of section 4.2 between a temperature and a thermal
    speed in km/s, and the constants they use. *)
Definition k_B : float := 1.38064852e-23%float.
Definition m_p : float := 1.672621898e-27%float.

Definition vth2temp (vth m : float) : float :=
  (m * (vth * 1e3) * (vth * 1e3) / (2 * k_B))%float.

Definition temp2vth (temp m : float) : float :=
  (sqrt (2 * k_B * temp / m) / 1e3)%float.

(** Modelled from the spec: [helpers.rotationmatrix] on a field along +z,
    which is aligned with the reference axis as it is. *)
Definition identity : mat3 := M3 (V3 1 0 0) (V3 0 1 0) (V3 0 0 1).
Definition rotationmatrix (B : vec3) : mat3 := identity.

(** [np.power(np.pi, 1.5)], the one power the driver takes. *)
Definition np_power (x y : float) : float :=
  if (x =? np_pi)%float && (y =? 1.5)%float
  then 5.568327996831708%float else nan.

(** A run of the solver that ends on the parameters [p] with the status
    [ier]. *)
Definition solver (p : params6) (ier : Z)
  : params6 -> list vec3 -> list float -> params6 * Z :=
  fun _ _ _ => (p, ier).

Definition mk (e el az : Z) (f x y z : float) : sample :=
  {| E_bin := e; El := el; Az := az; counts := 1;
     abs_v := norm3 (V3 x y z); pdf := f; vx := x; vy := y; vz := z |}.

Definition dist : list sample :=
  [ mk 0 0 0 1 350000 (-10000) (-10000);
    mk 0 0 1 2 350000 0 (-10000);
    mk 0 0 2 1 350000 10000 (-10000);
    mk 1 1 0 4 400000 (-10000) 0;
    mk 1 1 1 8 400000 0 0;
    mk 1 1 2 4 400000 10000 0;
    mk 2 2 0 1 450000 (-10000) 10000;
    mk 2 2 1 2 450000 0 10000;
    mk 2 2 2 1 450000 10000 10000 ]%float.

Definition params : dist_params :=
  {| ion_instrument := 1; helios_vr := 20; helios_v := 30 |}.

Definition fit_1D : fit_1D_summary := {| status_1D := 1; T_p := 50000 |}.

Definition I1a : list row_1D :=
  [ {| label_1D := 300; v_1D := 300; df_1D := 1 |};
    {| label_1D := 400; v_1D := 400; df_1D := 3 |};
    {| label_1D := 500; v_1D := 500; df_1D := 2 |} ]%float.

Definition starttime : Z := 0.

(** Four field samples inside the window of three seconds, one before it
    and one after it. *)
Definition mag4hz : list mag_row :=
  [ {| mag_time := -250000; Bx := 0; By := 0; Bz := 5 |};
    {| mag_time := 250000; Bx := 0; By := 0; Bz := 5 |};
    {| mag_time := 500000; Bx := 0; By := 0; Bz := 5 |};
    {| mag_time := 750000; Bx := 0; By := 0; Bz := 5 |};
    {| mag_time := 1000000; Bx := 0; By := 0; Bz := 5 |};
    {| mag_time := 3250000; Bx := 0; By := 0; Bz := 5 |} ]%float.

(** Fitted parameters: a plausible core, and one far too dense that sits
    outside the sampled velocities. *)
Definition good_fit : params6 := P6 8 30 25 400 0 0.
Definition wild_fit : params6 := P6 1000 30 25 1000 0 0.

(** A fit of plausible density and width whose velocity is out of the
    sampled range. *)
Definition far_fit : params6 := P6 8 30 25 1000 0 0.

(** The field samples of [mag4hz] inside the measurement window. *)
Definition window_rows : list mag_row :=
  [ {| mag_time := 250000; Bx := 0; By := 0; Bz := 5 |};
    {| mag_time := 500000; Bx := 0; By := 0; Bz := 5 |};
    {| mag_time := 750000; Bx := 0; By := 0; Bz := 5 |};
    {| mag_time := 1000000; Bx := 0; By := 0; Bz := 5 |} ]%float.

(** A 1-D distribution that ends at 360 km/s and peaks at 300 km/s: it
    leaves three samples, in one elevation bin, all faster than its peak. *)
Definition I1a_short : list row_1D :=
  [ {| label_1D := 300; v_1D := 300; df_1D := 3 |};
    {| label_1D := 360; v_1D := 360; df_1D := 1 |} ]%float.

(** The set-up and the driver on this distribution, for a field and a
    solver outcome. *)
Definition set_up (m4 m6 : option (list mag_row)) (p : params6) (ier : Z)
  : result (record + locals) :=
  iondistfitting_setup rotationmatrix temp2vth m_p (solver p ier)
                       dist params fit_1D m4 m6 starttime I1a.

(** The local variables the set-up hands over; the default stands for a
    set-up that returned early. *)
Definition no_locals : locals :=
  {| l_output := ∅; l_instrument := 0; l_starttime := 0;
     l_params := params; l_vs := []; l_df := []; l_magempty := true;
     l_R := None; l_fitparams := P6 0 0 0 0 0 0; l_fitstatus := 0 |}.

Definition locals_of (m4 m6 : option (list mag_row)) (p : params6) (ier : Z)
  : locals :=
  match set_up m4 m6 p ier with
  | Ok (inr l) => l
  | _ => no_locals
  end.

Definition run (m4 m6 : option (list mag_row)) (p : params6) (ier : Z)
  : result record :=
  iondistfitting rotationmatrix temp2vth vth2temp m_p np_power
                 (solver p ier) dist params fit_1D m4 m6 starttime I1a.

End Example.

(** ** Reading an output record *)

(** The fields of an output record (section 3 of the specification). *)
Definition physical_fields : list string :=
  ["n_p"; "vth_p_perp"; "vth_p_par"; "Tp_perp"; "Tp_par";
   "vp_x"; "vp_y"; "vp_z"].

Definition field_fields : list string :=
  ["B instrument"; "Bx"; "By"; "Bz"; "sigma B"].

Definition output_fields : gset string :=
  list_to_set (physical_fields ++ ["Time"; "Status"; "Instrument"]
               ++ field_fields).

(** Every one of [keys] is in the record, as [np.nan]. *)
Definition all_missing (keys : list string) (rec : record) : Prop :=
  Forall (fun k => rec !! k = Some py_nan) keys.

(** An entry that is there and is [np.nan]. *)
Definition is_missing_entry (entry : option pyval) : bool :=
  match entry with
  | Some v => is_missing v
  | None => false
  end.

(** An entry of the record a call returns, and the keys of that record;
    [None] when the call raises. *)
Definition field_of (r : result record) (k : string) : option pyval :=
  match r with
  | Ok rec => rec !! k
  | Raise _ => None
  end.

Definition keys_of (r : result record) : option (gset string) :=
  match r with
  | Ok rec => Some (dom rec)
  | Raise _ => None
  end.

(** The call returns a record whose status is [s]. *)
Definition has_status (r : result record) (s : Z) : Prop :=
  field_of r "Status" = Some (PyInt s).

(** The call returns the record of a rejection with the status [s]: the
    complete set of fields, every physical quantity and every field
    quantity missing. *)
Definition rejected (r : result record) (s : Z) : Prop :=
  has_status r s
  /\ keys_of r = Some output_fields
  /\ Forall (fun k => field_of r k = Some py_nan)
            (physical_fields ++ field_fields).

(** The record returned holds the mean of the field samples [rows] and the
    norm of their standard deviation. *)
Definition holds_field (r : result record) (rows : list mag_row) : Prop :=
  field_of r "Bx" = Some (PyFloat (c0 (mean_axis0 (field_vectors rows))))
  /\ field_of r "By" = Some (PyFloat (c1 (mean_axis0 (field_vectors rows))))
  /\ field_of r "Bz" = Some (PyFloat (c2 (mean_axis0 (field_vectors rows))))
  /\ field_of r "sigma B"
     = Some (PyFloat (norm3 (std_axis0 (field_vectors rows)))).

(** The local variables are fit for the rest of the function: the arrays
    have rows, [R] is bound when there is a field, and the output holds the
    instrument and the five field entries. *)
Definition ready (l : locals) : Prop :=
  l_df l <> [] /\ l_vs l <> []
  /\ (l_magempty l = false -> is_Some (l_R l))
  /\ dom (l_output l) = list_to_set ("Instrument" :: field_fields).

(** ** The gates, as the specification lists them *)

(** The first gate of a list that fails, with the status it rejects with. *)
Fixpoint first_failing (gates : list (bool * Z)) : option Z :=
  match gates with
  | [] => None
  | (fails, status) :: rest =>
      if fails then Some status else first_failing rest
  end.

(** Section 4.4, step 1: the five pre-conditions in their order, the third
    to the fifth on the samples left by the velocity truncation. *)
Definition prefit_gates (dist : list sample) (fit_1D : fit_1D_summary)
    (I1a : list row_1D) : list (bool * Z) :=
  let kept := truncate dist I1a in
  [ (two_distributions fit_1D, 9%Z);
    (negative_counts dist, 9%Z);
    (too_few_points kept, 5%Z);
    (too_few_bins kept, 12%Z);
    (match peak_absent kept I1a with
     | Ok no_peak => no_peak
     | Raise _ => false
     end, 10%Z) ].

(** The five pre-conditions of section 4.4, step 1, in the words of the
    specification, as properties of the inputs of the driver. *)
Module Precondition.

(** (1) The auxiliary 1-D fit has status 9. *)
Definition fit_1D_status_9 (fit_1D : fit_1D_summary) : Prop :=
  status_1D fit_1D = 9%Z.

(** (2) Some raw count is negative. *)
Definition some_negative_count (dist : list sample) : Prop :=
  exists r, In r dist /\ (counts r < 0)%Z.

(** The velocity bound of the 1-D fit, the largest of its velocities, in
    the unit of the sample speeds; and the samples at or below it. *)
Definition velocity_bound (I1a : list row_1D) : float :=
  (Pd.series_max (map v_1D I1a) * 1e3)%float.

Definition at_or_below_bound (I1a : list row_1D) (r : sample) : bool :=
  (abs_v r <=? velocity_bound I1a)%float.

Definition remaining (dist : list sample) (I1a : list row_1D)
  : list sample :=
  List.filter (at_or_below_bound I1a) dist.

(** (3) Fewer than 7 samples remain. *)
Definition fewer_than_7 (kept : list sample) : Prop :=
  (length kept < 7)%nat.

(** Three of the labels are pairwise distinct. *)
Definition three_distinct (labels : list Z) : Prop :=
  exists a b c,
    In a labels /\ In b labels /\ In c labels
    /\ a <> b /\ a <> c /\ b <> c.

(** (4) Fewer than 3 distinct azimuth bins, or fewer than 3 distinct
    elevation bins. *)
Definition fewer_than_3_bins (kept : list sample) : Prop :=
  ~ three_distinct (map Az kept) \/ ~ three_distinct (map El kept).

(** (5) The smallest sample speed, in km/s, is above the peak estimate of
    the 1-D distribution. *)
Definition slowest_above_peak (kept : list sample) (I1a : list row_1D)
  : Prop :=
  exists peak,
    Pd.idxmax (map (fun r => (label_1D r, df_1D r)) I1a) = Ok peak
    /\ (peak <? Pd.series_min (map (fun r => (abs_v r / 1e3)%float) kept))
         %float = true.

End Precondition.

(** The fitted bulk velocity [v] lies outside what the sample velocities
    [vs] span: below the least or above the greatest sample on one axis, or
    slower than the slowest sample. *)
Definition velocity_outside (v : vec3) (vs : list vec3) : Prop :=
  (exists i lo, (i < 3)%nat /\ Np.min (column i vs) = Ok lo
                /\ (component i v <? lo)%float = true)
  \/ (exists i hi, (i < 3)%nat /\ Np.max (column i vs) = Ok hi
                   /\ (hi <? component i v)%float = true)
  \/ (exists slowest, Np.min (map norm3 vs) = Ok slowest
                      /\ (norm3 v <? slowest)%float = true).

(** The field samples the driver averages: those of the series it selects
    that lie strictly inside the measurement window of the truncated
    distribution; [None] when it finds none. *)
Definition field_rows (dist : list sample) (I1a : list row_1D)
    (mag4hz mag6s : option (list mag_row)) (starttime : Z)
  : option (list mag_row) :=
  match measurement_window starttime (truncate dist I1a) with
  | Ok (t0, t1) =>
      match select_field mag4hz mag6s t0 t1 ∅ with
      | (Some rows, false, _) => Some rows
      | _ => None
      end
  | Raise _ => None
  end.

(** ** The status taxonomy *)

(** [statusdict]: the message of each status code. *)
Definition statusdict : gmap Z string :=
  list_to_map
    [ (1, "Fitting successful");
      (2, "No magnetic field data available");
      (3, "Magnetic field varies too much for a reliable fit");
      (4, "Fitted bulk velocity outside distribution velocity bounds");
      (5, "Less than 6 points available for fitting");
      (6, "Least square fitting failed");
      (9, "Think there is more than one distribution in file");
      (10, "Proton peak not present in 3D distribution");
      (11, "Number density physically unrealistic");
      (12, "Less than 3 angular bins available in either direction");
      (13, "Temperature physically unrealistic") ]%Z.

(** ** The model and its residuals *)

(** [a - b] on two one-dimensional arrays, with numpy's broadcasting: equal
    lengths, or one of them of length one; [ValueError] otherwise. *)
Definition np_subtract (a b : list float) : result (list float) :=
  if (length a =? length b)%nat then Ok (zip_with PrimFloat.sub a b)
  else
    match a, b with
    | [x], _ => Ok (map (fun y => (x - y)%float) b)
    | _, [y] => Ok (map (fun x => (x - y)%float) a)
    | _, _ => Raise ValueError
    end.

Section Model.

(** [numpy.exp]. *)
Variable np_exp : float -> float.

(** [bi_maxwellian_3D] at one point; on arrays it acts entry by entry.  A
    square is the product of the number with itself. *)
Definition bi_maxwellian_3D
    (vx vy vz A vth_perp vth_z vbx vby vbz : float) : float :=
  let vx := (vx - vbx)%float in
  let vy := (vy - vby)%float in
  let vz := (vz - vbz)%float in
  let exponent :=
    ((vx / vth_perp) * (vx / vth_perp)
     + (vy / vth_perp) * (vy / vth_perp)
     + (vz / vth_z) * (vz / vth_z))%float in
  (A * np_exp (- exponent))%float.

(** The model with the parameters [args[:6]] at the velocity [v]. *)
Definition model (args : params6) (v : vec3) : float :=
  bi_maxwellian_3D (c0 v) (c1 v) (c2 v)
                   (p_A args) (p_vth_perp args) (p_vth_par args)
                   (p_vbx args) (p_vby args) (p_vbz args).

(** [resid(args, vprime, df)] of [iondistfitting], lines 175-178. *)
Definition resid (args : params6) (vprime : list vec3) (df : list float)
  : result (list float) :=
  let fit := map (model args) vprime in
  np_subtract df fit.

End Model.

(** ** The conversion to CSV ([src/fitting/convert_distparams.py]) *)

(** [data.loc[mask, 'Status'] = value] on the column of statuses, the mask
    being a test on the column itself. *)
Definition assign_where (mask : Z -> bool) (value : Z) (column : list Z)
  : list Z :=
  map (fun s => if mask s then value else s) column.

(** Lines 31-33: status 3 becomes 1, then every status above 2 becomes 3. *)
Definition convert_statuses (column : list Z) : list Z :=
  let column := assign_where (fun s => (s =? 3)%Z) 1%Z column in
  assign_where (fun s => (2 <? s)%Z) 3%Z column.

(** ** The statistics of the fits ([src/visualising/fit_stat_graphs.py]) *)

(** Python's [datetime] at midnight, as the number of seconds since the
    start of day 0 of the proleptic Gregorian calendar, and the [days] of a
    [timedelta]. *)
Module Datetime.

Definition is_leap (year : Z) : bool :=
  (year mod 4 =? 0)%Z
  && (negb (year mod 100 =? 0)%Z || (year mod 400 =? 0)%Z).

Definition days_in_month (year month : Z) : Z :=
  match month with
  | 2 => if is_leap year then 29 else 28
  | 4 | 6 | 9 | 11 => 30
  | _ => 31
  end%Z.

Definition days_before_year (year : Z) : Z :=
  let y := (year - 1)%Z in
  (y * 365 + y / 4 - y / 100 + y / 400)%Z.

Definition days_before_month (year month : Z) : Z :=
  (match month with
   | 1 => 0 | 2 => 31 | 3 => 59 | 4 => 90 | 5 => 120 | 6 => 151
   | 7 => 181 | 8 => 212 | 9 => 243 | 10 => 273 | 11 => 304 | _ => 334
   end
   + (if (2 <? month)%Z && is_leap year then 1 else 0))%Z.

Definition ymd2ord (year month day : Z) : Z :=
  (days_before_year year + days_before_month year month + day)%Z.

(** [datetime(year, month, day, 0, 0, 0)]; [ValueError] outside the
    calendar. *)
Definition datetime (year month day : Z) : result Z :=
  if (1 <=? year)%Z && (year <=? 9999)%Z
     && (1 <=? month)%Z && (month <=? 12)%Z
     && (1 <=? day)%Z && (day <=? days_in_month year month)%Z
  then Ok (ymd2ord year month day * 86400)%Z
  else Raise ValueError.

(** [timedelta(seconds=n).days] *)
Definition timedelta_days (n : Z) : Z := (n / 86400)%Z.

End Datetime.

(** [range(a, b)] *)
Definition py_range (a b : Z) : list Z :=
  map (fun i => (a + Z.of_nat i)%Z) (seq 0 (Z.to_nat (b - a))).

(** A month of the statistics: its first second, its last second and its
    number of days. *)
Record period : Type := {
  starttime_of : Z;
  endtime_of : Z;
  ndays_of : Z
}.

(** Lines 22-31, the loop over [month] for one [year], the periods in the
    order they are visited.  The body may change [year], and the months
    that follow see the change. *)
Fixpoint months_loop (year : Z) (months : list Z) : result (list period) :=
  match months with
  | [] => mret []
  | month :: rest =>
      starttime ← Datetime.datetime year month 1;
      let '(year, month) :=
        if (month =? 12)%Z then ((year + 1)%Z, 0%Z) else (year, month) in
      next ← Datetime.datetime year (month + 1) 1;
      let endtime := (next - 1)%Z in
      let ndays := (Datetime.timedelta_days (endtime - starttime) + 1)%Z in
      later ← months_loop year rest;
      mret ({| starttime_of := starttime; endtime_of := endtime;
               ndays_of := ndays |} :: later)
  end.

(** Line 21, the loop over [year]. *)
Fixpoint years_loop (years : list Z) : result (list period) :=
  match years with
  | [] => mret []
  | year :: rest =>
      now ← months_loop year (py_range 1 12);
      later ← years_loop rest;
      mret (now ++ later)
  end.

Definition periods : result (list period) :=
  years_loop (py_range 1974 1985).

(** Lines 42-43: [(params_3D['Status'] == code).sum()] *)
Definition count_status (code : Z) (column : list Z) : nat :=
  length (List.filter (fun s => (s =? code)%Z) column).

(** ** Cleaning a distribution ([src/visualising/plot_3D_dist.py]) *)

(** Line 27: [pdf[~np.isfinite(pdf)] = 0] *)
Definition zero_nonfinite (pdf : list float) : list float :=
  map (fun x => if negb (Np.isfinite x) then 0%float else x) pdf.

(** The calendar month [month] of [year]: its first second, its last second
    and its number of days. *)
Definition calendar_month (year month : Z) : period :=
  let first := (Datetime.ymd2ord year month 1 * 86400)%Z in
  {| starttime_of := first;
     endtime_of :=
       (first + Datetime.days_in_month year month * 86400 - 1)%Z;
     ndays_of := Datetime.days_in_month year month |}.

(** ** Further worked cases *)
Module Cases.

(** A stand-in for [numpy.exp] in the worked cases: (1 + x/1024)^1024, by
    ten squarings. *)
Fixpoint squared (n : nat) (y : float) : float :=
  match n with
  | O => y
  | S n => squared n (y * y)%float
  end.

Definition np_exp (x : float) : float := squared 10 (1 + x / 1024)%float.

(** The velocities of the worked distribution, in km/s. *)
Definition vs : list vec3 := velocities Example.dist.

(** The initial guesses on the worked distribution; the default stands for
    a call that raised. *)
Definition guesses : params6 :=
  match initial_guesses Example.temp2vth Example.m_p
                        (map pdf Example.dist) vs Example.fit_1D with
  | Ok g => g
  | Raise _ => Example.good_fit
  end.

(** A low-cadence series with two samples inside the window of the worked
    distribution, and a high-cadence series with none there. *)
Definition mag6s : list mag_row :=
  [ {| mag_time := 1000000; Bx := 1; By := 0; Bz := 4 |};
    {| mag_time := 2500000; Bx := 1; By := 0; Bz := 4 |};
    {| mag_time := 7000000; Bx := 1; By := 0; Bz := 4 |} ]%float.

(** A fit of plausible amplitude that is too narrow along the field. *)
Definition narrow_fit : params6 := P6 8 30 3 400 0 0.

(** A fit that is too narrow along the field and far too dense as well. *)
Definition dense_narrow_fit : params6 := P6 1000 30 3 400 0 0.

(** Inputs for the pre-fit gates: a 1-D fit that saw two distributions;
    the worked distribution with one more sample, of negative count; the
    worked distribution with every sample in one azimuth bin; and a 1-D
    distribution that ends at 500 km/s and peaks at 300 km/s, below the
    slowest sample. *)
Definition fit_1D_two : fit_1D_summary := {| status_1D := 9; T_p := 50000 |}.

Definition dist_negative : list sample :=
  {| E_bin := 3; El := 0; Az := 0; counts := -1; abs_v := 400000;
     pdf := 1; vx := 400000; vy := 0; vz := 0 |} :: Example.dist.

Definition dist_one_azimuth : list sample :=
  map (fun r => {| E_bin := E_bin r; El := El r; Az := 0;
                   counts := counts r; abs_v := abs_v r; pdf := pdf r;
                   vx := vx r; vy := vy r; vz := vz r |}) Example.dist.

Definition I1a_low : list row_1D :=
  [ {| label_1D := 300; v_1D := 300; df_1D := 3 |};
    {| label_1D := 500; v_1D := 500; df_1D := 1 |} ]%float.

(** The driver on such inputs, with the worked field and a solver that
    would succeed. *)
Definition returned (fit_1D : fit_1D_summary) (dist : list sample)
    (I1a : list row_1D) : result record :=
  iondistfitting Example.rotationmatrix Example.temp2vth Example.vth2temp
                 Example.m_p Example.np_power
                 (Example.solver Example.good_fit 1)
                 dist Example.params fit_1D (Some Example.mag4hz) None
                 Example.starttime I1a.

(** A 1-D fit so hot that its thermal speed, 406 km/s, is above 100, and
    the initial guesses with it. *)
Definition hot_fit_1D : fit_1D_summary := {| status_1D := 1; T_p := 1e7 |}.

Definition hot_guesses : params6 :=
  match initial_guesses Example.temp2vth Example.m_p
                        (map pdf Example.dist) vs hot_fit_1D with
  | Ok g => g
  | Raise _ => Example.good_fit
  end.

Definition mag4hz_outside : list mag_row :=
  [ {| mag_time := -250000; Bx := 0; By := 0; Bz := 5 |};
    {| mag_time := 3000000; Bx := 0; By := 0; Bz := 5 |} ]%float.

End Cases.

(** ** Properties of [return_nans] *)

Lemma return_nans_int (s : Z) (time instrument : pyval) :
  exists rec,
    return_nans (PyInt s) time instrument = Ok rec
    /\ rec !! "Status" = Some (PyInt s)
    /\ rec !! "Time" = Some time
    /\ rec !! "Instrument" = Some instrument
    /\ dom rec = output_fields
    /\ all_missing physical_fields rec /\ all_missing field_fields rec.
Proof.
  eexists. split; [reflexivity|].
  repeat split; try reflexivity; repeat constructor.
Qed.

Lemma return_nans_rejected (s : Z) (time instrument : pyval) :
  rejected (return_nans (PyInt s) time instrument) s.
Proof.
  split; [reflexivity|]. split; [reflexivity|]. repeat constructor.
Qed.

Lemma rejected_has_status (r : result record) (s : Z) :
  rejected r s -> has_status r s.
Proof. intros [H _]. exact H. Qed.

(** C8. [return_nans] called with a status that is not an [int] fails its
    assertion; called with an [int] it returns, every physical quantity
    (and every field quantity) missing, with the time, the status and the
    instrument it was given. *)
Theorem return_nans_asserts_int_status (status time instrument : pyval) :
  match status with
  | PyInt s =>
      exists rec,
        return_nans status time instrument = Ok rec
        /\ all_missing physical_fields rec
        /\ all_missing field_fields rec
        /\ rec !! "Time" = Some time
        /\ rec !! "Status" = Some (PyInt s)
        /\ rec !! "Instrument" = Some instrument
  | _ =>
      return_nans status time instrument
      = Raise (AssertionError "Status code must be an integer")
  end.
Proof.
  destruct status as [s| | | | |]; try reflexivity.
  destruct (return_nans_int s time instrument)
    as (rec & E & Hs & Ht & Hi & _ & Hp & Hf).
  exists rec. auto 10.
Qed.

(** ** The error monad *)

Lemma bind_Ok {A B} (a : A) (k : A -> result B) : (Ok a ≫= k) = k a.
Proof. reflexivity. Qed.

Lemma bind_Raise {A B} (e : exn) (k : A -> result B) :
  (Raise e ≫= k) = Raise e.
Proof. reflexivity. Qed.

Lemma bind_Ok_inv {A B} (r : result A) (k : A -> result B) (b : B) :
  (r ≫= k) = Ok b -> exists a, r = Ok a /\ k a = Ok b.
Proof. destruct r as [a|e]; [eauto | discriminate]. Qed.

(** ** The reductions never fail on an array that has a row *)

Lemma Np_max_total (a : list float) :
  a <> [] -> exists x, Np.max a = Ok x.
Proof. destruct a; [congruence | eauto]. Qed.

Lemma Np_min_total (a : list float) :
  a <> [] -> exists x, Np.min a = Ok x.
Proof. destruct a; [congruence | eauto]. Qed.

Lemma map_not_nil {A B} (f : A -> B) (l : list A) : l <> [] -> map f l <> [].
Proof. destruct l; [congruence | discriminate]. Qed.

Lemma idxmax_total (s : list (float * float)) :
  s <> [] -> exists x, Pd.idxmax s = Ok x.
Proof.
  destruct s as [|[l x] t]; [congruence|]. intros _.
  unfold Pd.idxmax.
  destruct (forallb _ _); eauto.
Qed.

(** ** NaN in a product *)

Lemma mul_nan_l (y : float) : (nan * y)%float = nan.
Proof.
  apply Prim2SF_inj. rewrite mul_spec.
  change (Prim2SF nan) with S754_nan. reflexivity.
Qed.

Lemma mul_nan_r (x : float) : (x * nan)%float = nan.
Proof.
  apply Prim2SF_inj. rewrite mul_spec.
  change (Prim2SF nan) with S754_nan.
  destruct (Prim2SF x); reflexivity.
Qed.

(** Three pairwise distinct labels are what [nunique] counts from 3 on. *)
Lemma nunique_three (labels : list Z) :
  (Pd.nunique labels < 3)%nat <-> ~ Precondition.three_distinct labels.
Proof.
  unfold Pd.nunique, Precondition.three_distinct. split.
  - intros Hlt (a & b & c & Ha & Hb & Hc & Hab & Hac & Hbc).
    assert (List.NoDup [a; b; c]) as Hnd.
    { repeat constructor; simpl; intuition congruence. }
    assert (incl [a; b; c] (nodup Z.eq_dec labels)) as Hincl.
    { intros x [<- | [<- | [<- | []]]]; apply nodup_In; assumption. }
    apply (List.NoDup_incl_length Hnd) in Hincl. simpl in Hincl. lia.
  - intros Hnot.
    pose proof (List.NoDup_nodup Z.eq_dec labels) as Hnd.
    assert (forall x, In x (nodup Z.eq_dec labels) -> In x labels) as Hin
      by (intros x; apply nodup_In).
    destruct (nodup Z.eq_dec labels) as [|a [|b [|c t]]];
      [simpl; lia..|].
    exfalso. apply Hnot. exists a, b, c.
    inversion_clear Hnd as [|? ? Ha Hnd'].
    inversion_clear Hnd' as [|? ? Hb _].
    repeat split; try (apply Hin; simpl; tauto);
      intros ->; simpl in Ha, Hb; tauto.
Qed.

Section Properties.

Variable rotationmatrix : vec3 -> mat3.
Variable temp2vth : float -> float -> float.
Variable vth2temp : float -> float -> float.
Variable m_p : float.
Variable np_power : float -> float -> float.
Variable leastsq : params6 -> list vec3 -> list float -> params6 * Z.

Local Abbreviation setup :=
  (iondistfitting_setup rotationmatrix temp2vth m_p leastsq).
Local Abbreviation finish := (iondistfitting_finish vth2temp m_p np_power).
Local Abbreviation driver :=
  (iondistfitting rotationmatrix temp2vth vth2temp m_p np_power leastsq).

Lemma peak_absent_total (dist : list sample) (I1a : list row_1D) :
  exists b, peak_absent dist I1a = Ok b.
Proof.
  unfold peak_absent.
  destruct I1a as [|r t]; [simpl; eauto|].
  destruct (idxmax_total (map (fun r => (label_1D r, df_1D r)) (r :: t)))
    as [x E]; [discriminate|].
  cbn [length Nat.eqb negb]. rewrite E, bind_Ok. eauto.
Qed.

Lemma too_few_points_false (dist : list sample) :
  too_few_points dist = false -> dist <> [].
Proof. destruct dist; [discriminate | discriminate]. Qed.

Lemma measurement_window_total (starttime : Z) (dist : list sample) :
  dist <> [] ->
  exists t0 t1, measurement_window starttime dist = Ok (t0, t1).
Proof.
  destruct dist as [|r t]; [congruence|]. intros _.
  unfold measurement_window. cbn [map Np.min_int Np.max_int].
  rewrite !bind_Ok. eauto.
Qed.

Lemma reject_not_continue (s : Z) (time instrument : pyval) (l : locals) :
  (r ← return_nans (PyInt s) time instrument; mret (inl r))
  <> (Ok (inr l) : result (record + locals)).
Proof. discriminate. Qed.

(** What a set-up that reaches the solver went through. *)
Lemma setup_continues dist params fit_1D mag4hz mag6s starttime I1a l :
  setup dist params fit_1D mag4hz mag6s starttime I1a = Ok (inr l) ->
  two_distributions fit_1D = false
  /\ negative_counts dist = false
  /\ too_few_points (truncate dist I1a) = false
  /\ too_few_bins (truncate dist I1a) = false
  /\ peak_absent (truncate dist I1a) I1a = Ok false
  /\ exists t0 t1 mag magempty out0 out R vprime guesses,
      measurement_window starttime (truncate dist I1a) = Ok (t0, t1)
      /\ select_field mag4hz mag6s t0 t1
           (<["Instrument" := PyInt (ion_instrument params)]> ∅)
         = (mag, magempty, out0)
      /\ field_frame rotationmatrix mag magempty
           (velocities (truncate dist I1a)) out0 = Ok (out, R, vprime)
      /\ initial_guesses temp2vth m_p (map pdf (truncate dist I1a)) vprime
           fit_1D = Ok guesses
      /\ l = {| l_output := out;
                l_instrument := ion_instrument params;
                l_starttime := starttime;
                l_params := params;
                l_vs := velocities (truncate dist I1a);
                l_df := map pdf (truncate dist I1a);
                l_magempty := magempty;
                l_R := R;
                l_fitparams :=
                  fst (leastsq guesses vprime (map pdf (truncate dist I1a)));
                l_fitstatus :=
                  snd (leastsq guesses vprime (map pdf (truncate dist I1a)))
             |}.
Proof.
  unfold iondistfitting_setup. cbv zeta.
  destruct (two_distributions fit_1D);
    [intros H; exfalso; exact (reject_not_continue _ _ _ _ H)|].
  destruct (negative_counts dist);
    [intros H; exfalso; exact (reject_not_continue _ _ _ _ H)|].
  destruct (too_few_points (truncate dist I1a));
    [intros H; exfalso; exact (reject_not_continue _ _ _ _ H)|].
  destruct (too_few_bins (truncate dist I1a));
    [intros H; exfalso; exact (reject_not_continue _ _ _ _ H)|].
  intros H. apply bind_Ok_inv in H as (no_peak & Epeak & H).
  destruct no_peak; [exfalso; exact (reject_not_continue _ _ _ _ H)|].
  apply bind_Ok_inv in H as ([t0 t1] & Ewin & H).
  destruct (select_field mag4hz mag6s t0 t1 _) as [[mag magempty] out0] eqn:Esel.
  apply bind_Ok_inv in H as ([[out R] vprime] & Eframe & H).
  apply bind_Ok_inv in H as (guesses & Eguess & H).
  injection H as <-.
  repeat split; trivial.
  exists t0, t1, mag, magempty, out0, out, R, vprime, guesses. auto.
Qed.

(** The field selection tags the output and, when it finds a field, has
    rows to average. *)
Lemma select_field_inv mag4hz mag6s t0 t1 (output : record) mag magempty out0 :
  select_field mag4hz mag6s t0 t1 output = (mag, magempty, out0) ->
  (exists tag, out0 = <["B instrument" := tag]> output
               /\ (tag = py_nan \/ tag = PyInt 2 \/ tag = PyInt 1))
  /\ (magempty = false -> exists rows, mag = Some rows /\ rows <> []).
Proof.
  unfold select_field.
  destruct mag4hz as [m4|], mag6s as [m6|];
    repeat match goal with
      | |- context [List.filter ?f ?m] =>
          destruct (List.filter f m) eqn:?; cbn [is_empty]
      end;
    intros [= <- <- <-];
    (split; [eexists; split; [reflexivity|tauto] | ]);
    intros; try discriminate; eexists; (split; [reflexivity | discriminate]).
Qed.

Lemma outside_bounds_total (v : vec3) (vs : list vec3) (axes : list nat) :
  vs <> [] -> exists b, outside_bounds v vs axes = Ok b.
Proof.
  intros Hvs. induction axes as [|i rest IH]; [simpl; eauto|].
  cbn [outside_bounds].
  destruct (Np_min_total (column i vs)) as [lo Elo];
    [apply map_not_nil, Hvs|].
  destruct (Np_max_total (column i vs)) as [hi Ehi];
    [apply map_not_nil, Hvs|].
  destruct (Np_min_total (map norm3 vs)) as [slowest Eslow];
    [apply map_not_nil, Hvs|].
  rewrite Elo, bind_Ok. destruct (_ <? lo)%float; [eauto|].
  rewrite Ehi, bind_Ok. destruct (hi <? _)%float; [eauto|].
  rewrite Eslow, bind_Ok. destruct (_ <? slowest)%float; [eauto|].
  exact IH.
Qed.

Lemma field_frame_inv mag magempty vs (out0 out : record) R vprime :
  field_frame rotationmatrix mag magempty vs out0 = Ok (out, R, vprime) ->
  if magempty then
    out = <["sigma B" := py_nan]> (<["Bz" := py_nan]>
            (<["By" := py_nan]> (<["Bx" := py_nan]> out0)))
    /\ R = None /\ vprime = vs
  else
    exists rows,
      mag = Some rows
      /\ out = <["sigma B" :=
                  PyFloat (norm3 (std_axis0 (field_vectors rows)))]>
               (<["Bz" := PyFloat (c2 (mean_axis0 (field_vectors rows)))]>
               (<["By" := PyFloat (c1 (mean_axis0 (field_vectors rows)))]>
               (<["Bx" := PyFloat (c0 (mean_axis0 (field_vectors rows)))]>
                  out0)))
      /\ R = Some (rotationmatrix (mean_axis0 (field_vectors rows)))
      /\ vprime = map (mat_vec (rotationmatrix
                                  (mean_axis0 (field_vectors rows)))) vs.
Proof.
  unfold field_frame.
  destruct magempty; cbn [negb].
  - intros [= <- <- <-]. auto.
  - destruct mag as [rows|]; [|discriminate].
    intros [= <- <- <-]. exists rows. auto.
Qed.

Lemma setup_ready dist params fit_1D mag4hz mag6s starttime I1a l :
  setup dist params fit_1D mag4hz mag6s starttime I1a = Ok (inr l) ->
  ready l /\ l_instrument l = ion_instrument params
  /\ l_starttime l = starttime.
Proof.
  intros H. apply setup_continues in H
    as (_ & _ & Hpts & _ & _ & t0 & t1 & mag & magempty & out0 & out & R
        & vprime & guesses & _ & Esel & Eframe & _ & ->).
  apply too_few_points_false in Hpts.
  apply select_field_inv in Esel as [(tag & -> & _) _].
  apply field_frame_inv in Eframe.
  cbn [l_df l_vs l_magempty l_R l_output l_instrument l_starttime].
  split; [|auto].
  split; [apply map_not_nil, Hpts|].
  split; [apply map_not_nil, Hpts|].
  destruct magempty.
  - destruct Eframe as (-> & -> & ->). split; [discriminate | reflexivity].
  - destruct Eframe as (rows & -> & -> & -> & ->).
    split; [eauto | reflexivity].
Qed.

(** The set-up never raises: it returns early through [return_nans], with
    one of the four pre-fit statuses, or hands over local variables. *)
Lemma setup_total dist params fit_1D mag4hz mag6s starttime I1a :
  (exists s rec,
     In s [9; 5; 12; 10]%Z
     /\ setup dist params fit_1D mag4hz mag6s starttime I1a = Ok (inl rec)
     /\ return_nans (PyInt s) (PyDatetime starttime)
                     (PyInt (ion_instrument params)) = Ok rec)
  \/ (exists l,
       setup dist params fit_1D mag4hz mag6s starttime I1a = Ok (inr l)).
Proof.
  unfold iondistfitting_setup. cbv zeta.
  destruct (two_distributions fit_1D);
    [left; exists 9%Z; eexists; split; [simpl; tauto | split; reflexivity]|].
  destruct (negative_counts dist);
    [left; exists 9%Z; eexists; split; [simpl; tauto | split; reflexivity]|].
  destruct (too_few_points (truncate dist I1a)) eqn:Hpts;
    [left; exists 5%Z; eexists; split; [simpl; tauto | split; reflexivity]|].
  destruct (too_few_bins (truncate dist I1a));
    [left; exists 12%Z; eexists; split; [simpl; tauto | split; reflexivity]|].
  apply too_few_points_false in Hpts.
  destruct (peak_absent_total (truncate dist I1a) I1a) as [no_peak ->].
  rewrite bind_Ok.
  destruct no_peak;
    [left; exists 10%Z; eexists; split; [simpl; tauto | split; reflexivity]|].
  right.
  destruct (measurement_window_total starttime _ Hpts) as (t0 & t1 & ->).
  rewrite bind_Ok.
  destruct (select_field mag4hz mag6s t0 t1 _)
    as [[mag magempty] out0] eqn:Esel.
  apply select_field_inv in Esel as [_ Hmag].
  assert (exists f, field_frame rotationmatrix mag magempty
                      (velocities (truncate dist I1a)) out0 = Ok f)
    as [[[out R] vprime] ->].
  { unfold field_frame. destruct magempty; cbn [negb]; [eauto|].
    destruct Hmag as (rows & -> & _); eauto. }
  rewrite bind_Ok. unfold initial_guesses.
  destruct (Np_max_total (map pdf (truncate dist I1a))) as [Ap ->];
    [apply map_not_nil, Hpts|].
  rewrite !bind_Ok. eauto.
Qed.

Lemma spacecraft_frame_total magempty R fitparams :
  (magempty = false -> is_Some R) ->
  exists fp v, spacecraft_frame magempty R fitparams = Ok (fp, v).
Proof.
  intros HR. unfold spacecraft_frame.
  destruct magempty; [eauto|].
  destruct HR as [R' ->]; eauto.
Qed.

Lemma fit_dictionary_keys (params : dist_params) (fp : params6) (v : vec3) :
  dom (fit_dictionary vth2temp m_p np_power params fp v "p")
  = list_to_set physical_fields.
Proof. vm_compute. reflexivity. Qed.

(** [process_fitparams] never raises on ready local variables: it returns
    4 when the loop finds the velocity outside its bounds, and else the
    dictionary of the eight fitted quantities. *)
Lemma process_fitparams_cases magempty R vs params fitparams fp v :
  vs <> [] ->
  spacecraft_frame magempty R fitparams = Ok (fp, v) ->
  (outside_bounds v vs [0; 1; 2]%nat = Ok true
   /\ process_fitparams vth2temp m_p np_power magempty R vs params
                         fitparams "p" = Ok (FitInt 4))
  \/ (outside_bounds v vs [0; 1; 2]%nat = Ok false
      /\ process_fitparams vth2temp m_p np_power magempty R vs params
                            fitparams "p"
         = Ok (FitDict (fit_dictionary vth2temp m_p np_power params fp v
                                       "p"))).
Proof.
  intros Hvs Eframe. unfold process_fitparams.
  rewrite Eframe, bind_Ok.
  destruct (outside_bounds_total v vs [0; 1; 2]%nat Hvs) as [[|] Eout];
    rewrite Eout, bind_Ok; [left; auto | right; auto].
Qed.

(** The rest of the function never raises on ready local variables: it
    returns through [return_nans] with one of the four post-fit statuses,
    or returns the output updated with the fitted quantities, the time,
    the status (2 without a field, 1 with one) and the instrument. *)
Lemma finish_cases (l : locals) :
  ready l ->
  (exists s,
     In s [6; 11; 12; 4]%Z
     /\ finish l = return_nans (PyInt s) (PyDatetime (l_starttime l))
                               (PyInt (l_instrument l)))
  \/ (exists fp v,
       spacecraft_frame (l_magempty l) (l_R l) (l_fitparams l) = Ok (fp, v)
       /\ finish l
          = Ok (<["Instrument" := PyInt (l_instrument l)]>
                  (<["Status" := PyInt (if l_magempty l then 2 else 1)]>
                     (<["Time" := PyDatetime (l_starttime l)]>
                        (fit_dictionary vth2temp m_p np_power (l_params l)
                                        fp v "p"
                         ∪ l_output l))))).
Proof.
  intros (Hdf & Hvs & HR & _).
  unfold iondistfitting_finish. cbv zeta.
  destruct (converged (l_fitstatus l)); cbn [negb];
    [|left; exists 6%Z; split; [simpl; tauto | reflexivity]].
  unfold density_unrealistic.
  destruct (Np_max_total (l_df l) Hdf) as [peak ->]. rewrite !bind_Ok.
  destruct (_ && negb (l_magempty l));
    [left; exists 11%Z; split; [simpl; tauto | reflexivity]|].
  destruct (width_unrealistic _ _);
    [left; exists 12%Z; split; [simpl; tauto | reflexivity]|].
  destruct (spacecraft_frame_total (l_magempty l) (l_R l) (l_fitparams l) HR)
    as (fp & v & Eframe).
  destruct (process_fitparams_cases (l_magempty l) (l_R l) (l_vs l)
              (l_params l) (l_fitparams l) fp v Hvs Eframe)
    as [[_ ->] | [_ ->]]; rewrite bind_Ok.
  - left. exists 4%Z. split; [simpl; tauto | reflexivity].
  - right. exists fp, v. auto.
Qed.

Lemma driver_early dist params fit_1D mag4hz mag6s starttime I1a rec :
  setup dist params fit_1D mag4hz mag6s starttime I1a = Ok (inl rec) ->
  driver dist params fit_1D mag4hz mag6s starttime I1a = Ok rec.
Proof. intros H. unfold iondistfitting. rewrite H. reflexivity. Qed.

Lemma driver_continues dist params fit_1D mag4hz mag6s starttime I1a l :
  setup dist params fit_1D mag4hz mag6s starttime I1a = Ok (inr l) ->
  driver dist params fit_1D mag4hz mag6s starttime I1a = finish l.
Proof. intros H. unfold iondistfitting. rewrite H. reflexivity. Qed.

(** The record of a successful fit: what each of its entries is. *)
Lemma success_record (d out : record) (instrument time status : pyval) :
  dom d = list_to_set physical_fields ->
  dom out = list_to_set ("Instrument" :: field_fields) ->
  let rec := <["Instrument" := instrument]>
               (<["Status" := status]> (<["Time" := time]> (d ∪ out))) in
  dom rec = output_fields
  /\ rec !! "Status" = Some status
  /\ rec !! "Time" = Some time
  /\ rec !! "Instrument" = Some instrument
  /\ Forall (fun k => rec !! k = d !! k) physical_fields
  /\ Forall (fun k => rec !! k = out !! k) field_fields.
Proof.
  intros Hd Hout rec. subst rec.
  assert (Hnot : Forall (fun k => d !! k = None) field_fields).
  { repeat constructor; apply not_elem_of_dom; rewrite Hd;
      apply (bool_decide_unpack _); vm_compute; exact I. }
  split.
  { rewrite !dom_insert_L, dom_union_L, Hd, Hout. reflexivity. }
  split; [by simplify_map_eq|].
  split; [by simplify_map_eq|].
  split; [by simplify_map_eq|].
  split.
  - repeat constructor;
      (rewrite !lookup_insert_ne by done);
      match goal with
      | |- (d ∪ out) !! ?k = _ =>
          assert (is_Some (d !! k)) as [x Hx]
            by (apply elem_of_dom; rewrite Hd;
                apply (bool_decide_unpack _); vm_compute; exact I);
          rewrite Hx; apply lookup_union_Some_l, Hx
      end.
  - unfold field_fields in Hnot.
    repeat match goal with
           | H : Forall _ (_ :: _) |- _ => inversion_clear H
           end.
    repeat constructor;
      (rewrite !lookup_insert_ne by done);
      apply lookup_union_r; assumption.
Qed.

(** Every call returns a complete record whose status is one of the nine
    the driver knows. *)
Lemma driver_outcome dist params fit_1D mag4hz mag6s starttime I1a :
  exists rec s,
    driver dist params fit_1D mag4hz mag6s starttime I1a = Ok rec
    /\ rec !! "Status" = Some (PyInt s)
    /\ In s [1; 2; 4; 5; 6; 9; 10; 11; 12]%Z
    /\ dom rec = output_fields.
Proof.
  destruct (setup_total dist params fit_1D mag4hz mag6s starttime I1a)
    as [(s & rec & Hs & Esetup & Erec) | [l Esetup]].
  - destruct (return_nans_int s (PyDatetime starttime)
                (PyInt (ion_instrument params)))
      as (rec' & E & Hst & _ & _ & Hdom & _).
    rewrite Erec in E. injection E as <-.
    exists rec, s. rewrite (driver_early _ _ _ _ _ _ _ _ Esetup).
    repeat split; trivial. simpl in Hs. simpl. intuition.
  - rewrite (driver_continues _ _ _ _ _ _ _ _ Esetup).
    destruct (setup_ready _ _ _ _ _ _ _ _ Esetup) as (Hready & _).
    destruct (finish_cases l Hready) as [(s & Hs & ->) | (fp & v & _ & ->)].
    + destruct (return_nans_int s (PyDatetime (l_starttime l))
                  (PyInt (l_instrument l)))
        as (rec & E & Hst & _ & _ & Hdom & _).
      exists rec, s. repeat split; trivial. simpl in Hs. simpl. intuition.
    + destruct Hready as (_ & _ & _ & Hout).
      pose proof (fit_dictionary_keys (l_params l) fp v) as Hd.
      generalize dependent (fit_dictionary vth2temp m_p np_power
                              (l_params l) fp v "p").
      intros d Hd.
      destruct (success_record d (l_output l) (PyInt (l_instrument l))
                  (PyDatetime (l_starttime l))
                  (PyInt (if l_magempty l then 2 else 1)) Hd Hout)
        as (Hdom & Hst & _).
      eexists. exists (if l_magempty l then 2%Z else 1%Z).
      repeat split; [exact Hst | | exact Hdom].
      destruct (l_magempty l); simpl; tauto.
Qed.

(** *** The pre-fit gates *)

Lemma negative_counts_spec (dist : list sample) :
  negative_counts dist = true <-> exists r, In r dist /\ (counts r < 0)%Z.
Proof.
  unfold negative_counts. rewrite existsb_exists.
  split; intros (r & Hin & Hr); exists r; (split; [exact Hin|]); lia.
Qed.

Lemma too_few_points_spec (dist : list sample) :
  too_few_points dist = true <-> (length dist < 7)%nat.
Proof. unfold too_few_points. rewrite Nat.leb_le. lia. Qed.

Lemma too_few_bins_spec (dist : list sample) :
  too_few_bins dist = true
  <-> (Pd.nunique (map Az dist) < 3)%nat
      \/ (Pd.nunique (map El dist) < 3)%nat.
Proof.
  unfold too_few_bins. rewrite orb_true_iff, !Nat.ltb_lt. tauto.
Qed.

Lemma two_distributions_spec (fit_1D : fit_1D_summary) :
  two_distributions fit_1D = true <-> Precondition.fit_1D_status_9 fit_1D.
Proof.
  unfold two_distributions, Precondition.fit_1D_status_9. apply Z.eqb_eq.
Qed.

Lemma truncate_remaining (dist : list sample) (I1a : list row_1D) :
  truncate dist I1a = Precondition.remaining dist I1a.
Proof. reflexivity. Qed.

Lemma fewer_than_3_bins_spec (dist : list sample) :
  too_few_bins dist = true <-> Precondition.fewer_than_3_bins dist.
Proof.
  unfold too_few_bins, Precondition.fewer_than_3_bins. cbv zeta.
  rewrite orb_true_iff, !Nat.ltb_lt, !nunique_three. reflexivity.
Qed.

Lemma peak_absent_spec (dist : list sample) (I1a : list row_1D) :
  peak_absent dist I1a = Ok true <-> Precondition.slowest_above_peak dist I1a.
Proof.
  unfold peak_absent, Precondition.slowest_above_peak. cbv zeta.
  destruct I1a as [|r t].
  - simpl. split; [discriminate | intros (peak & E & _); discriminate].
  - cbn [length Nat.eqb negb].
    destruct (Pd.idxmax (map (fun r => (label_1D r, df_1D r)) (r :: t)))
      as [peak|e].
    + rewrite bind_Ok. split.
      * intros [= E]. exists peak. auto.
      * intros (peak' & [= <-] & E). cbv [mret result_ret]. rewrite E.
        reflexivity.
    + split; [discriminate | intros (peak & E & _); discriminate].
Qed.

(** C3. The pre-fit gates are tried in their order and the first that
    fails gives the status of the record returned: status 9 of the 1-D
    fit gives 9; a negative count gives 9; fewer than 7 samples left by the
    velocity truncation give 5; fewer than 3 distinct azimuth or elevation
    bins give 12; a slowest sample faster than the 1-D peak gives 10.  Each
    gate answers when those before it pass, whatever holds of those after
    it. *)
Theorem first_failing_gate_decides
    dist params fit_1D mag4hz mag6s starttime I1a :
  let kept := Precondition.remaining dist I1a in
  let returned := driver dist params fit_1D mag4hz mag6s starttime I1a in
  (Precondition.fit_1D_status_9 fit_1D -> rejected returned 9)
  /\ (Precondition.some_negative_count dist -> rejected returned 9)
  /\ (~ Precondition.fit_1D_status_9 fit_1D ->
      ~ Precondition.some_negative_count dist ->
      Precondition.fewer_than_7 kept ->
      rejected returned 5)
  /\ (~ Precondition.fit_1D_status_9 fit_1D ->
      ~ Precondition.some_negative_count dist ->
      ~ Precondition.fewer_than_7 kept ->
      Precondition.fewer_than_3_bins kept ->
      rejected returned 12)
  /\ (~ Precondition.fit_1D_status_9 fit_1D ->
      ~ Precondition.some_negative_count dist ->
      ~ Precondition.fewer_than_7 kept ->
      ~ Precondition.fewer_than_3_bins kept ->
      Precondition.slowest_above_peak kept I1a ->
      rejected returned 10).
Proof.
  intros kept returned. subst kept returned.
  rewrite <- truncate_remaining.
  unfold Precondition.some_negative_count, Precondition.fewer_than_7.
  rewrite <- two_distributions_spec, <- negative_counts_spec,
    <- too_few_points_spec, <- fewer_than_3_bins_spec, <- peak_absent_spec.
  unfold iondistfitting, iondistfitting_setup. cbv zeta.
  destruct (two_distributions fit_1D);
    [repeat split; intros; try apply return_nans_rejected; congruence|].
  destruct (negative_counts dist);
    [repeat split; intros; try apply return_nans_rejected; congruence|].
  destruct (too_few_points (truncate dist I1a));
    [repeat split; intros; try apply return_nans_rejected; congruence|].
  destruct (too_few_bins (truncate dist I1a));
    [repeat split; intros; try apply return_nans_rejected; congruence|].
  do 4 (split; [intros; congruence|]).
  intros _ _ _ _ ->. rewrite bind_Ok. apply return_nans_rejected.
Qed.

(** C6. Every call of the driver returns, without raising, one record
    whose keys are the sixteen fields of the data model, on whichever path
    it returns; the status is among them. *)
Theorem driver_returns_complete_record
    dist params fit_1D mag4hz mag6s starttime I1a :
  exists rec,
    driver dist params fit_1D mag4hz mag6s starttime I1a = Ok rec
    /\ dom rec = output_fields
    /\ is_Some (rec !! "Status").
Proof.
  destruct (driver_outcome dist params fit_1D mag4hz mag6s starttime I1a)
    as (rec & s & E & Hs & _ & Hdom).
  exists rec. rewrite Hs. eauto.
Qed.

(** C10. The status of the record the driver returns is one of 1, 2, 4,
    5, 6, 9, 10, 11 and 12; it is never 3 and never 13. *)
Theorem driver_status_codes
    dist params fit_1D mag4hz mag6s starttime I1a :
  exists rec s,
    driver dist params fit_1D mag4hz mag6s starttime I1a = Ok rec
    /\ rec !! "Status" = Some (PyInt s)
    /\ In s [1; 2; 4; 5; 6; 9; 10; 11; 12]%Z
    /\ s <> 3%Z /\ s <> 13%Z.
Proof.
  destruct (driver_outcome dist params fit_1D mag4hz mag6s starttime I1a)
    as (rec & s & E & Hs & Hin & _).
  exists rec, s. repeat split; trivial;
    intros ->; simpl in Hin; intuition discriminate.
Qed.

(** *** The gates after the fit *)

(** The loop over the three axes returns 4 exactly when the velocity lies
    outside the bounds of the samples. *)
Lemma outside_bounds_spec (v : vec3) (vs : list vec3) :
  vs <> [] ->
  outside_bounds v vs [0; 1; 2]%nat = Ok true <-> velocity_outside v vs.
Proof.
  intros Hvs.
  destruct (Np_min_total (column 0 vs)) as [lo0 Elo0];
    [apply map_not_nil, Hvs|].
  destruct (Np_min_total (column 1 vs)) as [lo1 Elo1];
    [apply map_not_nil, Hvs|].
  destruct (Np_min_total (column 2 vs)) as [lo2 Elo2];
    [apply map_not_nil, Hvs|].
  destruct (Np_max_total (column 0 vs)) as [hi0 Ehi0];
    [apply map_not_nil, Hvs|].
  destruct (Np_max_total (column 1 vs)) as [hi1 Ehi1];
    [apply map_not_nil, Hvs|].
  destruct (Np_max_total (column 2 vs)) as [hi2 Ehi2];
    [apply map_not_nil, Hvs|].
  destruct (Np_min_total (map norm3 vs)) as [slowest Eslow];
    [apply map_not_nil, Hvs|].
  cbn [outside_bounds].
  repeat (rewrite ?Elo0, ?Elo1, ?Elo2, ?Ehi0, ?Ehi1, ?Ehi2, ?Eslow, ?bind_Ok;
          match goal with
          | |- context [if ?b then _ else _] => destruct b eqn:?
          end);
    rewrite ?Elo0, ?Elo1, ?Elo2, ?Ehi0, ?Ehi1, ?Ehi2, ?Eslow, ?bind_Ok;
    unfold velocity_outside;
    (split; [intros E | intros H]);
    try reflexivity; try discriminate E;
    try (left; exists 0%nat; eexists; split; [lia|];
         split; eassumption);
    try (left; exists 1%nat; eexists; split; [lia|];
         split; eassumption);
    try (left; exists 2%nat; eexists; split; [lia|];
         split; eassumption);
    try (right; left; exists 0%nat; eexists; split; [lia|];
         split; eassumption);
    try (right; left; exists 1%nat; eexists; split; [lia|];
         split; eassumption);
    try (right; left; exists 2%nat; eexists; split; [lia|];
         split; eassumption);
    try (right; right; eexists; split; eassumption).
  exfalso.
  destruct H as [(i & lo & Hi & E & Hlt) | [(i & hi & Hi & E & Hlt)
                                           | (m & E & Hlt)]].
  - destruct i as [|[|[|i]]]; try lia;
      rewrite ?Elo0, ?Elo1, ?Elo2 in E; injection E as <-; congruence.
  - destruct i as [|[|[|i]]]; try lia;
      rewrite ?Ehi0, ?Ehi1, ?Ehi2 in E; injection E as <-; congruence.
  - rewrite Eslow in E. injection E as <-. congruence.
Qed.

(** C5, as the code has it.  After a fit that converged, the two
    plausibility gates act only when there is a field.  With a field, an
    amplitude above 20 times or below 0.1 times the largest observed
    density is rejected with status 11; the gate on the widths comes
    second, and rejects a thermal speed below 5 with status 12 when the
    amplitude is within that range.  Without a field neither gate acts:
    the record has status 2, or status 4 from the velocity bounds. *)
Theorem plausibility_gates_need_field
    dist params fit_1D mag4hz mag6s starttime I1a (l : locals) :
  setup dist params fit_1D mag4hz mag6s starttime I1a = Ok (inr l) ->
  converged (l_fitstatus l) = true ->
  exists peak,
    Np.max (l_df l) = Ok peak
    /\ let A := p_A (l_fitparams l) in
       let unrealistic :=
         (20 * peak <? A)%float || (A <? 0.1 * peak)%float in
       let narrow :=
         (p_vth_perp (l_fitparams l) <? 5)%float
         || (p_vth_par (l_fitparams l) <? 5)%float in
       let r := driver dist params fit_1D mag4hz mag6s starttime I1a in
       if l_magempty l then has_status r 2 \/ rejected r 4
       else (unrealistic = true -> rejected r 11)
            /\ (unrealistic = false -> narrow = true -> rejected r 12).
Proof.
  intros Esetup Hconv.
  rewrite (driver_continues _ _ _ _ _ _ _ _ Esetup).
  destruct (setup_ready _ _ _ _ _ _ _ _ Esetup)
    as ((Hdf & Hvs & HR & Hout) & _).
  destruct (Np_max_total (l_df l) Hdf) as [peak Epeak].
  exists peak. split; [exact Epeak|]. cbv zeta.
  unfold iondistfitting_finish, density_unrealistic, width_unrealistic.
  cbv zeta. rewrite Hconv, Epeak, !bind_Ok. cbn [negb].
  destruct (l_magempty l) eqn:Hmag; cbn [negb].
  - rewrite !andb_false_r.
    destruct (spacecraft_frame_total true (l_R l) (l_fitparams l))
      as (fp & v & Eframe); [discriminate|].
    destruct (process_fitparams_cases true (l_R l) (l_vs l)
                (l_params l) (l_fitparams l) fp v Hvs Eframe)
      as [[_ ->] | [_ ->]]; rewrite bind_Ok.
    + right. apply return_nans_rejected.
    + left. unfold has_status.
      cbv beta iota delta [mret result_ret field_of].
      rewrite lookup_insert_ne, lookup_insert_eq by done. reflexivity.
  - rewrite !andb_true_r. split.
    + intros ->. apply return_nans_rejected.
    + intros -> ->. apply return_nans_rejected.
Qed.

(** C4, as the code has it.  After a fit that converged and that neither
    plausibility gate rejected (they come first, with status 11 or 12), a
    bulk velocity that in the spacecraft frame lies outside the bounds of
    the sample velocities gives a record with status 4 and every physical
    quantity missing. *)
Theorem velocity_outside_bounds_rejects
    dist params fit_1D mag4hz mag6s starttime I1a (l : locals)
    (fp : params6) (v : vec3) :
  setup dist params fit_1D mag4hz mag6s starttime I1a = Ok (inr l) ->
  converged (l_fitstatus l) = true ->
  density_unrealistic (l_fitparams l) (l_df l) (l_magempty l) = Ok false ->
  width_unrealistic (l_fitparams l) (l_magempty l) = false ->
  spacecraft_frame (l_magempty l) (l_R l) (l_fitparams l) = Ok (fp, v) ->
  velocity_outside v (l_vs l) ->
  rejected (driver dist params fit_1D mag4hz mag6s starttime I1a) 4.
Proof.
  intros Esetup Hconv Hdens Hwidth Eframe Hout.
  rewrite (driver_continues _ _ _ _ _ _ _ _ Esetup).
  destruct (setup_ready _ _ _ _ _ _ _ _ Esetup) as ((_ & Hvs & _) & _).
  apply (outside_bounds_spec v (l_vs l) Hvs) in Hout.
  unfold iondistfitting_finish. cbv zeta.
  rewrite Hconv, Hdens, bind_Ok, Hwidth. cbn [negb].
  destruct (process_fitparams_cases (l_magempty l) (l_R l) (l_vs l)
              (l_params l) (l_fitparams l) fp v Hvs Eframe)
    as [[_ ->] | [Hin _]].
  - rewrite bind_Ok. apply return_nans_rejected.
  - rewrite Hin in Hout. discriminate.
Qed.

(** *** The field in the output *)

(** Which samples are selected does not depend on the output so far. *)
Lemma select_field_output mag4hz mag6s t0 t1 (out out' : record) :
  fst (select_field mag4hz mag6s t0 t1 out)
  = fst (select_field mag4hz mag6s t0 t1 out').
Proof.
  unfold select_field.
  destruct mag4hz as [m4|], mag6s as [m6|];
    repeat match goal with
      | |- context [List.filter ?f ?m] =>
          destruct (List.filter f m) eqn:?; cbn [is_empty]
      end;
    reflexivity.
Qed.

(** C1, as the code has it.  When there are field samples in the
    measurement window, the record of a successful fit (status 1) holds
    their mean and the norm of their standard deviation; every rejection,
    those with status 6, 11, 12 and 4 after the field was resolved
    included, returns the record of [return_nans], in which the field
    entries are missing. *)
Theorem field_recorded_on_success_only
    dist params fit_1D mag4hz mag6s starttime I1a (rows : list mag_row) :
  field_rows dist I1a mag4hz mag6s starttime = Some rows ->
  let r := driver dist params fit_1D mag4hz mag6s starttime I1a in
  (has_status r 1 /\ holds_field r rows)
  \/ (exists s, In s [4; 5; 6; 9; 10; 11; 12]%Z /\ rejected r s).
Proof.
  intros Hrows r. subst r.
  destruct (setup_total dist params fit_1D mag4hz mag6s starttime I1a)
    as [(s & rec & Hs & Esetup & Erec) | [l Esetup]].
  - rewrite (driver_early _ _ _ _ _ _ _ _ Esetup), <- Erec.
    right. exists s. split; [|apply return_nans_rejected].
    simpl in Hs. simpl. intuition.
  - rewrite (driver_continues _ _ _ _ _ _ _ _ Esetup).
    destruct (setup_ready _ _ _ _ _ _ _ _ Esetup) as (Hready & _).
    destruct (finish_cases l Hready) as [(s & Hs & ->) | (fp & v & _ & ->)].
    + right. exists s. split; [|apply return_nans_rejected].
      simpl in Hs. simpl. intuition.
    + left.
      destruct Hready as (_ & _ & _ & Hout).
      pose proof (fit_dictionary_keys (l_params l) fp v) as Hd.
      generalize dependent (fit_dictionary vth2temp m_p np_power
                              (l_params l) fp v "p").
      intros d Hd.
      destruct (success_record d (l_output l) (PyInt (l_instrument l))
                  (PyDatetime (l_starttime l))
                  (PyInt (if l_magempty l then 2 else 1)) Hd Hout)
        as (_ & Hst & _ & _ & _ & Hfield).
      apply setup_continues in Esetup
        as (_ & _ & _ & _ & _ & t0 & t1 & mag & magempty & out0 & out & R
            & vprime & guesses & Ewin & Esel & Eframe & _ & ->).
      cbn [l_output l_magempty l_instrument l_starttime] in *.
      unfold field_rows in Hrows. rewrite Ewin in Hrows.
      pose proof (select_field_output mag4hz mag6s t0 t1 ∅
                    (<["Instrument" := PyInt (ion_instrument params)]> ∅))
        as Hsel.
      rewrite Esel in Hsel.
      destruct (select_field mag4hz mag6s t0 t1 ∅) as [[mag' e'] o'].
      cbn [fst] in Hsel. injection Hsel as -> ->.
      destruct mag as [rows'|]; [|discriminate].
      destruct magempty; [discriminate|]. injection Hrows as ->.
      apply field_frame_inv in Eframe as (rows' & [= <-] & -> & _).
      split; [exact Hst|].
      unfold field_fields in Hfield.
      repeat match goal with
             | H : Forall _ (_ :: _) |- _ => inversion_clear H
             end.
      unfold holds_field, field_of.
      repeat split;
        match goal with
        | H : ?r !! ?k = _ |- ?r !! ?k = _ => rewrite H
        end; by simplify_map_eq.
Qed.

(** *** A successful fit *)

Lemma fit_dictionary_entries (params : dist_params) (fp : params6) (v : vec3) :
  let d := fit_dictionary vth2temp m_p np_power params fp v "p" in
  d !! "vth_p_perp" = Some (PyFloat (abs (p_vth_perp fp)))
  /\ d !! "vth_p_par" = Some (PyFloat (abs (p_vth_par fp)))
  /\ d !! "Tp_perp" = Some (PyFloat (vth2temp (abs (p_vth_perp fp)) m_p))
  /\ d !! "Tp_par" = Some (PyFloat (vth2temp (abs (p_vth_par fp)) m_p))
  /\ d !! "n_p"
     = Some (PyFloat (p_A fp * np_power np_pi 1.5
                      * abs (p_vth_perp fp) * 1e3
                      * abs (p_vth_perp fp) * 1e3
                      * abs (p_vth_par fp) * 1e3 * 1e-6)%float)
  /\ d !! "vp_x" = Some (PyFloat (c0 v + helios_vr params)%float)
  /\ d !! "vp_y" = Some (PyFloat (c1 v + helios_v params)%float)
  /\ d !! "vp_z" = Some (PyFloat (c2 v)).
Proof. repeat split; vm_compute; reflexivity. Qed.

(** A record with status 1 or 2 is that of the success path: its physical
    entries are those of the fitted dictionary and its field entries those
    the set-up put into the output. *)
Lemma driver_success dist params fit_1D mag4hz mag6s starttime I1a l s :
  setup dist params fit_1D mag4hz mag6s starttime I1a = Ok (inr l) ->
  has_status (driver dist params fit_1D mag4hz mag6s starttime I1a) s ->
  s = 1%Z \/ s = 2%Z ->
  exists fp v,
    spacecraft_frame (l_magempty l) (l_R l) (l_fitparams l) = Ok (fp, v)
    /\ Forall (fun k =>
                 field_of (driver dist params fit_1D mag4hz mag6s starttime
                                  I1a) k
                 = fit_dictionary vth2temp m_p np_power (l_params l) fp v
                                  "p" !! k)
              physical_fields
    /\ Forall (fun k =>
                 field_of (driver dist params fit_1D mag4hz mag6s starttime
                                  I1a) k
                 = l_output l !! k)
              field_fields.
Proof.
  intros Esetup Hst Hs.
  rewrite (driver_continues _ _ _ _ _ _ _ _ Esetup) in *.
  destruct (setup_ready _ _ _ _ _ _ _ _ Esetup) as (Hready & _).
  destruct (finish_cases l Hready)
    as [(s' & Hs' & E) | (fp & v & Eframe & E)]; rewrite E in *.
  - exfalso. unfold has_status in Hst.
    change (Some (PyInt s') = Some (PyInt s)) in Hst.
    injection Hst as ->. simpl in Hs'. lia.
  - exists fp, v. split; [exact Eframe|].
    destruct Hready as (_ & _ & _ & Hout).
    pose proof (fit_dictionary_keys (l_params l) fp v) as Hd.
    generalize dependent (fit_dictionary vth2temp m_p np_power
                            (l_params l) fp v "p").
    intros d _ _ Hd.
    destruct (success_record d (l_output l) (PyInt (l_instrument l))
                (PyDatetime (l_starttime l))
                (PyInt (if l_magempty l then 2 else 1)) Hd Hout)
      as (_ & _ & _ & _ & Hphys & Hfield).
    split; assumption.
Qed.

(** C9 on the code.  A fit without a field that succeeds (status 2)
    returns the thermal speeds as missing and the bulk velocity as the
    fitted one with the spacecraft velocity added, but the density is
    missing as well: it is computed from the thermal speeds after they
    were overwritten with [np.nan]. *)
Theorem density_missing_without_field
    dist params fit_1D mag4hz mag6s starttime I1a (l : locals) :
  setup dist params fit_1D mag4hz mag6s starttime I1a = Ok (inr l) ->
  l_magempty l = true ->
  has_status (driver dist params fit_1D mag4hz mag6s starttime I1a) 2 ->
  let r := driver dist params fit_1D mag4hz mag6s starttime I1a in
  field_of r "vth_p_perp" = Some py_nan
  /\ field_of r "vth_p_par" = Some py_nan
  /\ field_of r "vp_x"
     = Some (PyFloat (p_vbx (l_fitparams l) + helios_vr (l_params l))%float)
  /\ field_of r "vp_y"
     = Some (PyFloat (p_vby (l_fitparams l) + helios_v (l_params l))%float)
  /\ field_of r "vp_z" = Some (PyFloat (p_vbz (l_fitparams l)))
  /\ field_of r "n_p" = Some py_nan.
Proof.
  intros Esetup Hmag Hst r. subst r.
  destruct (driver_success _ _ _ _ _ _ _ _ _ Esetup Hst)
    as (fp & v & Eframe & Hphys & _); [tauto|].
  rewrite Hmag in Eframe. unfold spacecraft_frame in Eframe.
  injection Eframe as <- <-.
  destruct (fit_dictionary_entries (l_params l)
              (P6 (p_A (l_fitparams l)) nan nan (p_vbx (l_fitparams l))
                  (p_vby (l_fitparams l)) (p_vbz (l_fitparams l)))
              (V3 (p_vbx (l_fitparams l)) (p_vby (l_fitparams l))
                  (p_vbz (l_fitparams l))))
    as (Dperp & Dpar & _ & _ & Dn & Dx & Dy & Dz).
  unfold physical_fields in Hphys.
  repeat match goal with
         | H : Forall _ (_ :: _) |- _ => inversion_clear H
         end.
  cbn [p_A p_vth_perp p_vth_par c0 c1 c2] in *.
  change (abs nan) with nan in *.
  rewrite !mul_nan_r, !mul_nan_l in Dn.
  unfold py_nan. repeat split; congruence.
Qed.

(** C2 on the code.  When no low-cadence series is given and the
    high-cadence one has no sample in the window (or is not given either),
    a fit that succeeds (status 2) returns the field vector and its spread
    as missing, but names the high-cadence series (1) as their source. *)
Theorem absent_series_tagged_high_cadence
    dist params fit_1D mag4hz starttime I1a (l : locals) :
  setup dist params fit_1D mag4hz None starttime I1a = Ok (inr l) ->
  l_magempty l = true ->
  has_status (driver dist params fit_1D mag4hz None starttime I1a) 2 ->
  let r := driver dist params fit_1D mag4hz None starttime I1a in
  field_of r "B instrument" = Some (PyInt 1)
  /\ field_of r "Bx" = Some py_nan
  /\ field_of r "By" = Some py_nan
  /\ field_of r "Bz" = Some py_nan
  /\ field_of r "sigma B" = Some py_nan.
Proof.
  intros Esetup Hmag Hst r. subst r.
  destruct (driver_success _ _ _ _ _ _ _ _ _ Esetup Hst)
    as (fp & v & _ & _ & Hfield); [tauto|].
  apply setup_continues in Esetup
    as (_ & _ & _ & _ & _ & t0 & t1 & mag & magempty & out0 & out & R
        & vprime & guesses & _ & Esel & Eframe & _ & ->).
  cbn [l_output l_magempty] in *. subst magempty.
  apply field_frame_inv in Eframe. cbv beta iota in Eframe.
  destruct Eframe as [-> _].
  assert (out0 = <["B instrument" := PyInt 1]>
                   (<["Instrument" := PyInt (ion_instrument params)]> ∅))
    as ->.
  { unfold select_field in Esel.
    destruct mag4hz as [m4|];
      [destruct (is_empty (List.filter (in_window t0 t1) m4))|];
      cbv beta iota zeta in Esel; congruence. }
  unfold field_fields in Hfield.
  repeat match goal with
         | H : Forall _ (_ :: _) |- _ => inversion_clear H
         end.
  repeat split;
    match goal with
    | H : field_of _ ?k = _ |- field_of _ ?k = _ => rewrite H; reflexivity
    end.
Qed.

End Properties.

(** ** The worked distribution *)

Ltac each_by_computation :=
  repeat (apply Forall_cons_2; [vm_compute; reflexivity|]); apply Forall_nil_2.

Lemma example_field_rows :
  field_rows Example.dist Example.I1a (Some Example.mag4hz) None
             Example.starttime = Some Example.window_rows.
Proof. vm_compute. reflexivity. Qed.

Lemma example_mean_field :
  mean_axis0 (field_vectors Example.window_rows) = V3 0 0 5
  /\ norm3 (std_axis0 (field_vectors Example.window_rows)) = 0%float.
Proof. split; vm_compute; reflexivity. Qed.

Lemma example_short_gates :
  prefit_gates Example.dist Example.fit_1D Example.I1a_short
  = [(false, 9); (false, 9); (true, 5); (true, 12); (true, 10)]%Z.
Proof. vm_compute. reflexivity. Qed.

Lemma example_fit_succeeds :
  has_status (Example.run (Some Example.mag4hz) None Example.good_fit 1) 1
  /\ holds_field (Example.run (Some Example.mag4hz) None Example.good_fit 1)
                 Example.window_rows
  /\ field_of (Example.run (Some Example.mag4hz) None Example.good_fit 1)
              "B instrument" = Some (PyInt 1)
  /\ field_of (Example.run (Some Example.mag4hz) None Example.good_fit 1)
              "vth_p_perp" = Some (PyFloat 30)
  /\ field_of (Example.run (Some Example.mag4hz) None Example.good_fit 1)
              "vp_x" = Some (PyFloat 420).
Proof. repeat split; vm_compute; reflexivity. Qed.

(** Witness of C3, one input for each gate, the later conditions holding
    as well wherever they can: a 1-D fit of status 9 on samples with a
    negative count (9); a negative count with three samples left (9);
    three samples left, in one elevation bin and all faster than the 1-D
    peak (5); nine samples in one azimuth bin, all faster than the peak
    (12); nine samples in three bins each way, all faster than the peak
    (10). *)
Lemma first_failing_gate_witness :
  (Precondition.fit_1D_status_9 Cases.fit_1D_two
   /\ Precondition.some_negative_count Cases.dist_negative
   /\ rejected
        (Cases.returned Cases.fit_1D_two Cases.dist_negative
                        Example.I1a_short) 9)
  /\ (Precondition.some_negative_count Cases.dist_negative
      /\ Precondition.fewer_than_7
           (Precondition.remaining Cases.dist_negative Example.I1a_short)
      /\ rejected
           (Cases.returned Example.fit_1D Cases.dist_negative
                           Example.I1a_short) 9)
  /\ (Precondition.fewer_than_7
        (Precondition.remaining Example.dist Example.I1a_short)
      /\ Precondition.fewer_than_3_bins
           (Precondition.remaining Example.dist Example.I1a_short)
      /\ Precondition.slowest_above_peak
           (Precondition.remaining Example.dist Example.I1a_short)
           Example.I1a_short
      /\ rejected
           (Cases.returned Example.fit_1D Example.dist Example.I1a_short) 5)
  /\ (Precondition.fewer_than_3_bins
        (Precondition.remaining Cases.dist_one_azimuth Cases.I1a_low)
      /\ Precondition.slowest_above_peak
           (Precondition.remaining Cases.dist_one_azimuth Cases.I1a_low)
           Cases.I1a_low
      /\ rejected
           (Cases.returned Example.fit_1D Cases.dist_one_azimuth
                           Cases.I1a_low) 12)
  /\ (Precondition.slowest_above_peak
        (Precondition.remaining Example.dist Cases.I1a_low) Cases.I1a_low
      /\ rejected
           (Cases.returned Example.fit_1D Example.dist Cases.I1a_low) 10).
Proof.
  assert (Hone : ~ Precondition.fit_1D_status_9 Example.fit_1D).
  { intros H. apply (proj2 (two_distributions_spec _)) in H. vm_compute in H.
    discriminate. }
  assert (Hcounts : forall dist,
            negative_counts dist = false ->
            ~ Precondition.some_negative_count dist).
  { intros dist E H. apply (proj2 (negative_counts_spec _)) in H. congruence. }
  assert (Hpoints : forall dist,
            too_few_points dist = false -> ~ Precondition.fewer_than_7 dist).
  { intros dist E H. apply (proj2 (too_few_points_spec _)) in H. congruence. }
  assert (Hbins : forall dist,
            too_few_bins dist = false ->
            ~ Precondition.fewer_than_3_bins dist).
  { intros dist E H. apply (proj2 (fewer_than_3_bins_spec _)) in H. congruence. }
  assert (Hneg : Precondition.some_negative_count Cases.dist_negative).
  { apply negative_counts_spec. vm_compute. reflexivity. }
  assert (Hpeak_low : Precondition.slowest_above_peak
                        (Precondition.remaining Example.dist Cases.I1a_low)
                        Cases.I1a_low).
  { apply peak_absent_spec. vm_compute. reflexivity. }
  unfold Cases.returned.
  split; [|split; [|split; [|split]]].
  - pose proof (first_failing_gate_decides Example.rotationmatrix
                  Example.temp2vth Example.vth2temp Example.m_p
                  Example.np_power (Example.solver Example.good_fit 1)
                  Cases.dist_negative Example.params Cases.fit_1D_two
                  (Some Example.mag4hz) None Example.starttime
                  Example.I1a_short) as (G & _).
    assert (H : Precondition.fit_1D_status_9 Cases.fit_1D_two)
      by reflexivity.
    exact (conj H (conj Hneg (G H))).
  - pose proof (first_failing_gate_decides Example.rotationmatrix
                  Example.temp2vth Example.vth2temp Example.m_p
                  Example.np_power (Example.solver Example.good_fit 1)
                  Cases.dist_negative Example.params Example.fit_1D
                  (Some Example.mag4hz) None Example.starttime
                  Example.I1a_short) as (_ & G & _).
    split; [exact Hneg|]. split; [|exact (G Hneg)].
    apply too_few_points_spec. vm_compute. reflexivity.
  - pose proof (first_failing_gate_decides Example.rotationmatrix
                  Example.temp2vth Example.vth2temp Example.m_p
                  Example.np_power (Example.solver Example.good_fit 1)
                  Example.dist Example.params Example.fit_1D
                  (Some Example.mag4hz) None Example.starttime
                  Example.I1a_short) as (_ & _ & G & _).
    assert (H : Precondition.fewer_than_7
                  (Precondition.remaining Example.dist Example.I1a_short)).
    { apply too_few_points_spec. vm_compute. reflexivity. }
    split; [exact H|].
    split; [apply fewer_than_3_bins_spec; vm_compute; reflexivity|].
    split; [apply peak_absent_spec; vm_compute; reflexivity|].
    apply G; [exact Hone | | exact H].
    apply Hcounts. vm_compute. reflexivity.
  - pose proof (first_failing_gate_decides Example.rotationmatrix
                  Example.temp2vth Example.vth2temp Example.m_p
                  Example.np_power (Example.solver Example.good_fit 1)
                  Cases.dist_one_azimuth Example.params Example.fit_1D
                  (Some Example.mag4hz) None Example.starttime
                  Cases.I1a_low) as (_ & _ & _ & G & _).
    assert (H : Precondition.fewer_than_3_bins
                  (Precondition.remaining Cases.dist_one_azimuth
                                          Cases.I1a_low)).
    { apply fewer_than_3_bins_spec. vm_compute. reflexivity. }
    split; [exact H|].
    split; [apply peak_absent_spec; vm_compute; reflexivity|].
    apply G; [exact Hone | | | exact H].
    + apply Hcounts. vm_compute. reflexivity.
    + apply Hpoints. vm_compute. reflexivity.
  - pose proof (first_failing_gate_decides Example.rotationmatrix
                  Example.temp2vth Example.vth2temp Example.m_p
                  Example.np_power (Example.solver Example.good_fit 1)
                  Example.dist Example.params Example.fit_1D
                  (Some Example.mag4hz) None Example.starttime
                  Cases.I1a_low) as (_ & _ & _ & _ & G).
    split; [exact Hpeak_low|].
    apply G; [exact Hone | | | | exact Hpeak_low].
    + apply Hcounts. vm_compute. reflexivity.
    + apply Hpoints. vm_compute. reflexivity.
    + apply Hbins. vm_compute. reflexivity.
Defined.

(** Witness of C1: the fit succeeds and the record holds the field. *)
Lemma field_recorded_witness :
  field_rows Example.dist Example.I1a (Some Example.mag4hz) None
             Example.starttime = Some Example.window_rows
  /\ ((has_status
         (Example.run (Some Example.mag4hz) None Example.good_fit 1) 1
       /\ holds_field
            (Example.run (Some Example.mag4hz) None Example.good_fit 1)
            Example.window_rows)
      \/ (exists s,
            In s [4; 5; 6; 9; 10; 11; 12]%Z
            /\ rejected
                 (Example.run (Some Example.mag4hz) None Example.good_fit 1)
                 s)).
Proof.
  split; [vm_compute; reflexivity|].
  unfold Example.run.
  apply (field_recorded_on_success_only Example.rotationmatrix
           Example.temp2vth Example.vth2temp Example.m_p Example.np_power
           (Example.solver Example.good_fit 1)
           Example.dist Example.params Example.fit_1D
           (Some Example.mag4hz) None Example.starttime Example.I1a
           Example.window_rows).
  vm_compute. reflexivity.
Defined.

(** C1 as the specification states it fails: the solver gives up (status
    6) on a distribution with four field samples in its window, and the
    record returned holds no field. *)
Lemma field_dropped_on_rejection :
  field_rows Example.dist Example.I1a (Some Example.mag4hz) None
             Example.starttime = Some Example.window_rows
  /\ has_status (Example.run (Some Example.mag4hz) None Example.good_fit 5) 6
  /\ field_of (Example.run (Some Example.mag4hz) None Example.good_fit 5)
              "Bz" = Some py_nan
  /\ ~ holds_field
         (Example.run (Some Example.mag4hz) None Example.good_fit 5)
         Example.window_rows.
Proof.
  split; [vm_compute; reflexivity|].
  split; [vm_compute; reflexivity|].
  split; [vm_compute; reflexivity|].
  intros (_ & _ & H & _).
  apply (f_equal is_missing_entry) in H. vm_compute in H.
  discriminate.
Qed.

(** Witness of C4: density and widths are plausible, and the velocity, 1000
    km/s along x, is above the fastest sample. *)
Lemma velocity_outside_bounds_witness :
  velocity_outside (V3 1000 0 0) (velocities Example.dist)
  /\ rejected (Example.run (Some Example.mag4hz) None Example.far_fit 1) 4.
Proof.
  split.
  { right; left. exists 0%nat, 450%float.
    split; [lia|]. split; vm_compute; reflexivity. }
  apply (velocity_outside_bounds_rejects Example.rotationmatrix
           Example.temp2vth Example.vth2temp Example.m_p Example.np_power
           (Example.solver Example.far_fit 1)
           Example.dist Example.params Example.fit_1D
           (Some Example.mag4hz) None Example.starttime Example.I1a
           (Example.locals_of (Some Example.mag4hz) None Example.far_fit 1)
           Example.far_fit (V3 1000 0 0)).
  - vm_compute. reflexivity.
  - vm_compute. reflexivity.
  - vm_compute. reflexivity.
  - vm_compute. reflexivity.
  - vm_compute. reflexivity.
  - right; left. exists 0%nat, 450%float.
    split; [lia|]. split; vm_compute; reflexivity.
Defined.

(** C4 as the specification states it fails: the fit converged and its
    velocity is above the fastest sample, but its amplitude is more than 20
    times the largest density, and the record has status 11, not 4. *)
Lemma plausibility_gate_precedes_bounds :
  Example.set_up (Some Example.mag4hz) None Example.wild_fit 1
  = Ok (inr (Example.locals_of (Some Example.mag4hz) None
                               Example.wild_fit 1))
  /\ converged
       (l_fitstatus (Example.locals_of (Some Example.mag4hz) None
                                       Example.wild_fit 1)) = true
  /\ spacecraft_frame false (Some Example.identity) Example.wild_fit
     = Ok (Example.wild_fit, V3 1000 0 0)
  /\ velocity_outside (V3 1000 0 0) (velocities Example.dist)
  /\ has_status
       (Example.run (Some Example.mag4hz) None Example.wild_fit 1) 11
  /\ ~ has_status
         (Example.run (Some Example.mag4hz) None Example.wild_fit 1) 4.
Proof.
  split; [vm_compute; reflexivity|].
  split; [vm_compute; reflexivity|].
  split; [vm_compute; reflexivity|].
  split.
  { right; left. exists 0%nat, 450%float.
    split; [lia|]. split; vm_compute; reflexivity. }
  split; [vm_compute; reflexivity|].
  intros H. vm_compute in H. discriminate.
Qed.

(** C5 as the specification states it fails: with a field, a fit that
    converged has a thermal speed of 3 along the field, below 5, but its
    amplitude is more than 20 times the largest density, 8; the gate on
    the amplitude comes first and the record has status 11, not 12. *)
Lemma width_gate_follows_density_gate :
  Example.set_up (Some Example.mag4hz) None Cases.dense_narrow_fit 1
  = Ok (inr (Example.locals_of (Some Example.mag4hz) None
                               Cases.dense_narrow_fit 1))
  /\ l_magempty (Example.locals_of (Some Example.mag4hz) None
                                   Cases.dense_narrow_fit 1) = false
  /\ converged
       (l_fitstatus (Example.locals_of (Some Example.mag4hz) None
                                       Cases.dense_narrow_fit 1)) = true
  /\ l_fitparams (Example.locals_of (Some Example.mag4hz) None
                                    Cases.dense_narrow_fit 1)
     = Cases.dense_narrow_fit
  /\ (p_vth_par Cases.dense_narrow_fit <? 5)%float = true
  /\ Np.max (map pdf Example.dist) = Ok 8%float
  /\ (20 * 8 <? p_A Cases.dense_narrow_fit)%float = true
  /\ has_status
       (Example.run (Some Example.mag4hz) None Cases.dense_narrow_fit 1) 11
  /\ ~ has_status
         (Example.run (Some Example.mag4hz) None Cases.dense_narrow_fit 1)
         12.
Proof.
  do 8 (split; [vm_compute; reflexivity|]).
  intros H. vm_compute in H. discriminate.
Qed.

(** Witness of C5: with a field the wild fit is rejected with status 11
    and the narrow one, of plausible amplitude, with status 12; without a
    field the wild fit goes on to the velocity bounds. *)
Lemma plausibility_gates_witness :
  rejected (Example.run (Some Example.mag4hz) None Example.wild_fit 1) 11
  /\ rejected (Example.run (Some Example.mag4hz) None Cases.narrow_fit 1) 12
  /\ (has_status (Example.run None None Example.wild_fit 1) 2
      \/ rejected (Example.run None None Example.wild_fit 1) 4).
Proof.
  split; [|split].
  - destruct (plausibility_gates_need_field Example.rotationmatrix
                Example.temp2vth Example.vth2temp Example.m_p
                Example.np_power (Example.solver Example.wild_fit 1)
                Example.dist Example.params Example.fit_1D
                (Some Example.mag4hz) None Example.starttime Example.I1a
                (Example.locals_of (Some Example.mag4hz) None
                                   Example.wild_fit 1))
      as (peak & Epeak & H);
      [vm_compute; reflexivity | vm_compute; reflexivity |].
    vm_compute in Epeak. injection Epeak as <-.
    cbv zeta in H.
    replace (l_magempty (Example.locals_of (Some Example.mag4hz) None
                                           Example.wild_fit 1))
      with false in H by (vm_compute; reflexivity).
    apply H. vm_compute. reflexivity.
  - destruct (plausibility_gates_need_field Example.rotationmatrix
                Example.temp2vth Example.vth2temp Example.m_p
                Example.np_power (Example.solver Cases.narrow_fit 1)
                Example.dist Example.params Example.fit_1D
                (Some Example.mag4hz) None Example.starttime Example.I1a
                (Example.locals_of (Some Example.mag4hz) None
                                   Cases.narrow_fit 1))
      as (peak & Epeak & H);
      [vm_compute; reflexivity | vm_compute; reflexivity |].
    vm_compute in Epeak. injection Epeak as <-.
    cbv zeta in H.
    replace (l_magempty (Example.locals_of (Some Example.mag4hz) None
                                           Cases.narrow_fit 1))
      with false in H by (vm_compute; reflexivity).
    apply (proj2 H); vm_compute; reflexivity.
  - destruct (plausibility_gates_need_field Example.rotationmatrix
                Example.temp2vth Example.vth2temp Example.m_p
                Example.np_power (Example.solver Example.wild_fit 1)
                Example.dist Example.params Example.fit_1D
                None None Example.starttime Example.I1a
                (Example.locals_of None None Example.wild_fit 1))
      as (peak & _ & H);
      [vm_compute; reflexivity | vm_compute; reflexivity |].
    cbv zeta in H.
    replace (l_magempty (Example.locals_of None None Example.wild_fit 1))
      with true in H by (vm_compute; reflexivity).
    exact H.
Defined.

(** Witness of C2 on the code: neither series is given, the fit succeeds
    with status 2 and the record names the high-cadence series; with a
    low-cadence series that has no sample in the window the entry is
    missing. *)
Lemma absent_series_witness :
  field_rows Example.dist Example.I1a None None Example.starttime = None
  /\ has_status (Example.run None None Example.good_fit 1) 2
  /\ (field_of (Example.run None None Example.good_fit 1) "B instrument"
      = Some (PyInt 1)
      /\ field_of (Example.run None None Example.good_fit 1) "Bx"
         = Some py_nan
      /\ field_of (Example.run None None Example.good_fit 1) "By"
         = Some py_nan
      /\ field_of (Example.run None None Example.good_fit 1) "Bz"
         = Some py_nan
      /\ field_of (Example.run None None Example.good_fit 1) "sigma B"
         = Some py_nan)
  /\ field_of (Example.run None (Some []) Example.good_fit 1) "B instrument"
     = Some py_nan.
Proof.
  split; [vm_compute; reflexivity|].
  split; [vm_compute; reflexivity|].
  split; [|vm_compute; reflexivity].
  unfold Example.run.
  apply (absent_series_tagged_high_cadence Example.rotationmatrix
           Example.temp2vth Example.vth2temp Example.m_p Example.np_power
           (Example.solver Example.good_fit 1)
           Example.dist Example.params Example.fit_1D None
           Example.starttime Example.I1a
           (Example.locals_of None None Example.good_fit 1)).
  - vm_compute. reflexivity.
  - vm_compute. reflexivity.
  - vm_compute. reflexivity.
Defined.

(** Witness of C9 on the code: without a field the fit succeeds with
    status 2, the velocity is (420, 30, 0) km/s, and the density is missing
    with the thermal speeds and the temperatures. *)
Lemma density_missing_witness :
  has_status (Example.run None (Some []) Example.good_fit 1) 2
  /\ Forall (fun k => field_of (Example.run None (Some []) Example.good_fit 1)
                               k = Some py_nan)
            ["vth_p_perp"; "vth_p_par"; "Tp_perp"; "Tp_par"; "n_p"]
  /\ Forall (fun k => is_missing_entry
                        (field_of (Example.run None (Some [])
                                               Example.good_fit 1) k)
                      = false)
            ["vp_x"; "vp_y"; "vp_z"].
Proof.
  split; [vm_compute; reflexivity|].
  destruct (density_missing_without_field Example.rotationmatrix
              Example.temp2vth Example.vth2temp Example.m_p Example.np_power
              (Example.solver Example.good_fit 1)
              Example.dist Example.params Example.fit_1D None (Some [])
              Example.starttime Example.I1a
              (Example.locals_of None (Some []) Example.good_fit 1))
    as (Hperp & Hpar & Hx & Hy & Hz & Hn);
    [vm_compute; reflexivity | vm_compute; reflexivity
     | vm_compute; reflexivity |].
  fold (Example.run None (Some []) Example.good_fit 1) in *.
  split.
  - repeat (apply Forall_cons_2; [first [assumption
                                        | vm_compute; reflexivity]|]).
    apply Forall_nil_2.
  - apply Forall_cons_2; [rewrite Hx; vm_compute; reflexivity|].
    apply Forall_cons_2; [rewrite Hy; vm_compute; reflexivity|].
    apply Forall_cons_2; [rewrite Hz; vm_compute; reflexivity|].
    apply Forall_nil_2.
Defined.

(** ** More of the arithmetic of binary64 *)

Lemma round_aux_negb (s : bool) m e l :
  binary_round_aux prec emax (negb s) m e l
  = SFopp (binary_round_aux prec emax s m e l).
Proof.
  unfold binary_round_aux.
  destruct (shr_fexp prec emax m e l) as [mrs e'].
  destruct (shr_fexp prec emax _ e' loc_Exact) as [mrs' e''].
  destruct (shr_m mrs'); [reflexivity | | reflexivity].
  destruct (Z.leb e'' _); reflexivity.
Qed.

Lemma div_opp_r (x y : float) : (x / - y)%float = (- (x / y))%float.
Proof.
  apply Prim2SF_inj. rewrite opp_spec, !div_spec, opp_spec.
  unfold SF64div, SFdiv.
  destruct (Prim2SF x) as [sx|sx| |sx mx ex], (Prim2SF y) as [sy|sy| |sy my ey];
    cbn [SFopp]; try reflexivity;
    try (destruct sx, sy; reflexivity).
  destruct (SFdiv_core_binary prec emax (Z.pos mx) ex (Z.pos my) ey)
    as [[mz ez] lz].
  rewrite <- round_aux_negb. f_equal. destruct sx, sy; reflexivity.
Qed.

Lemma mul_opp_opp (x : float) : (- x * - x)%float = (x * x)%float.
Proof.
  apply Prim2SF_inj. rewrite !mul_spec, opp_spec.
  unfold SF64mul, SFmul.
  destruct (Prim2SF x) as [s|s| |s m e]; cbn [SFopp]; try reflexivity;
    destruct s; reflexivity.
Qed.

Lemma abs_cases (x : float) : abs x = x \/ abs x = (- x)%float.
Proof.
  destruct (Prim2SF x) as [s|s| |s m e] eqn:E;
    try destruct s;
    first [ left; apply Prim2SF_inj; rewrite abs_spec, E; reflexivity
          | right; apply Prim2SF_inj; rewrite abs_spec, opp_spec, E;
            reflexivity ].
Qed.

(** The square of a quotient does not see the sign of the divisor. *)
Lemma square_div_abs (x y : float) :
  ((x / abs y) * (x / abs y))%float = ((x / y) * (x / y))%float.
Proof.
  destruct (abs_cases y) as [-> | ->]; [reflexivity|].
  rewrite div_opp_r. apply mul_opp_opp.
Qed.

Lemma leb_nan_r (x : float) : (x <=? nan)%float = false.
Proof.
  rewrite leb_spec. change (Prim2SF nan) with S754_nan.
  unfold SFleb, SFcompare. destruct (Prim2SF x); reflexivity.
Qed.

Lemma ltb_abs_5 (x : float) :
  (x <? 5)%float = false -> (abs x <? 5)%float = false.
Proof.
  rewrite !ltb_spec, abs_spec.
  replace (Prim2SF 5) with (S754_finite false 5629499534213120 (-50))
    by (vm_compute; reflexivity).
  destruct (Prim2SF x) as [s|s| |s m e]; try destruct s;
    cbn [SFabs]; trivial; discriminate.
Qed.

Lemma finite_cases (x : float) :
  Np.isfinite x = true ->
  (exists s, Prim2SF x = S754_zero s)
  \/ (exists s m e, Prim2SF x = S754_finite s m e).
Proof.
  unfold Np.isfinite, is_nan, is_infinity.
  rewrite !FloatAxioms.eqb_spec, abs_spec.
  change (Prim2SF infinity) with (S754_infinity false).
  destruct (Prim2SF x) as [s|[|]| |s m e]; intros H; eauto;
    vm_compute in H; discriminate.
Qed.

Lemma sub_diag (x : float) : Np.isfinite x = true -> (x - x)%float = 0%float.
Proof.
  intros H. apply Prim2SF_inj. rewrite sub_spec.
  change (Prim2SF 0) with (S754_zero false).
  destruct (finite_cases x H) as [[s ->] | (s & m & e & ->)].
  - destruct s; reflexivity.
  - unfold SF64sub, SFsub. rewrite Z.sub_diag. reflexivity.
Qed.

(** ** The model and its residuals *)

(** X1. The model does not see the sign of a thermal speed: with the
    absolute values of both thermal speeds, which are what the driver
    reports, [bi_maxwellian_3D] gives the same density at every velocity. *)
Theorem bi_maxwellian_3D_abs_widths (np_exp : float -> float)
    (vx vy vz A vth_perp vth_z vbx vby vbz : float) :
  bi_maxwellian_3D np_exp vx vy vz A (abs vth_perp) (abs vth_z) vbx vby vbz
  = bi_maxwellian_3D np_exp vx vy vz A vth_perp vth_z vbx vby vbz.
Proof.
  unfold bi_maxwellian_3D. cbv zeta.
  rewrite !square_div_abs. reflexivity.
Qed.

Lemma np_subtract_self (a : list float) :
  Forall (fun x => Np.isfinite x = true) a ->
  np_subtract a a = Ok (map (fun _ => 0%float) a).
Proof.
  intros H. unfold np_subtract. rewrite Nat.eqb_refl. f_equal.
  induction H as [|x a Hx _ IH]; [reflexivity|].
  cbn [zip_with map]. rewrite (sub_diag x Hx), IH. reflexivity.
Qed.

(** X2. On noiseless data the residuals vanish: when [df] is the model with
    the parameters [args] at every velocity of [vprime], and these
    densities are finite, [resid(args, vprime, df)] is the array of
    zeros. *)
Theorem resid_zero_on_model_data (np_exp : float -> float)
    (args : params6) (vprime : list vec3) :
  Forall (fun v => Np.isfinite (model np_exp args v) = true) vprime ->
  resid np_exp args vprime (map (model np_exp args) vprime)
  = Ok (map (fun _ => 0%float) vprime).
Proof.
  intros H. unfold resid. cbv zeta.
  rewrite np_subtract_self.
  - rewrite map_map. reflexivity.
  - apply Forall_map. exact H.
Qed.

(** The residuals are one per sample when the arrays agree in length, and
    a [ValueError] when they do not and neither has length one. *)
Lemma resid_length (np_exp : float -> float)
    (args : params6) (vprime : list vec3) (df r : list float) :
  length df = length vprime ->
  resid np_exp args vprime df = Ok r -> length r = length vprime.
Proof.
  intros Hlen. unfold resid, np_subtract. cbv zeta.
  rewrite length_map, Hlen, Nat.eqb_refl. intros [= <-].
  rewrite length_zip_with, length_map. lia.
Qed.

(** ** The conversion of the statuses *)

Lemma convert_statuses_map (column : list Z) :
  convert_statuses column
  = map (fun s => if (s =? 3)%Z then 1%Z
                  else if (2 <? s)%Z then 3%Z else s) column.
Proof.
  unfold convert_statuses, assign_where. rewrite map_map.
  apply map_ext. intros s.
  destruct (s =? 3)%Z eqn:E; [reflexivity|].
  reflexivity.
Qed.

(** X3. On the statuses the driver returns, the conversion keeps 1 and 2
    and turns every rejection into 3; the rule for status 3 never applies
    to them. *)
Theorem convert_statuses_of_driver (column : list Z) :
  Forall (fun s => In s [1; 2; 4; 5; 6; 9; 10; 11; 12]%Z) column ->
  convert_statuses column
  = map (fun s => if (s <=? 2)%Z then s else 3%Z) column.
Proof.
  intros H. rewrite convert_statuses_map.
  apply map_ext_Forall. eapply Forall_impl; [exact H|].
  intros s Hs. cbv beta. simpl in Hs.
  repeat (destruct Hs as [<- | Hs]; [reflexivity|]). destruct Hs.
Qed.

Lemma convert_statuses_of_driver_witness :
  convert_statuses [1; 2; 4; 11; 12]%Z = [1; 2; 3; 3; 3]%Z.
Proof.
  apply (convert_statuses_of_driver [1; 2; 4; 11; 12]%Z).
  repeat (apply Forall_cons_2; [simpl; tauto|]). apply Forall_nil_2.
Defined.

(** X4. The conversion is not idempotent: applied to statuses it has
    already converted, it turns every rejection (a status above 2) into
    status 1, the status of a successful fit. *)
Theorem convert_statuses_twice (column : list Z) :
  Forall (fun s => 2 < s)%Z column ->
  convert_statuses (convert_statuses column) = map (fun _ => 1%Z) column.
Proof.
  intros H. rewrite !convert_statuses_map, map_map.
  apply map_ext_Forall. eapply Forall_impl; [exact H|].
  intros s Hs. cbv beta.
  destruct (s =? 3)%Z eqn:E3; [reflexivity|].
  replace (2 <? s)%Z with true by (symmetry; apply Z.ltb_lt; exact Hs).
  reflexivity.
Qed.

Lemma convert_statuses_twice_witness :
  convert_statuses (convert_statuses [4; 3; 12]%Z) = [1; 1; 1]%Z.
Proof.
  apply (convert_statuses_twice [4; 3; 12]%Z).
  repeat (apply Forall_cons_2; [lia|]). apply Forall_nil_2.
Defined.

Lemma count_status_cons (code s : Z) (column : list Z) :
  count_status code (s :: column)
  = ((if (s =? code)%Z then 1 else 0) + count_status code column)%nat.
Proof.
  unfold count_status. cbn [List.filter].
  destruct (s =? code)%Z; reflexivity.
Qed.

(** X5. What the statistics count after the conversion: the fits with
    status 1 are those that had status 1 or 3, the fits with status 2 are
    those that had status 2, and together they are never more than the
    rows. *)
Theorem count_status_after_conversion (column : list Z) :
  count_status 1 (convert_statuses column)
  = (count_status 1 column + count_status 3 column)%nat
  /\ count_status 2 (convert_statuses column) = count_status 2 column
  /\ (count_status 1 (convert_statuses column)
      + count_status 2 (convert_statuses column)
      <= length column)%nat.
Proof.
  rewrite convert_statuses_map.
  induction column as [|s column (IH1 & IH2 & IH3)];
    [repeat split; reflexivity|].
  cbn [map length]. rewrite !count_status_cons, IH1, IH2.
  rewrite IH1, IH2 in IH3.
  destruct (s =? 3)%Z eqn:E3.
  - apply Z.eqb_eq in E3. subst s. cbn. repeat split; lia.
  - destruct (2 <? s)%Z eqn:E2.
    + apply Z.ltb_lt in E2. apply Z.eqb_neq in E3.
      replace (s =? 1)%Z with false by (symmetry; apply Z.eqb_neq; lia).
      replace (s =? 2)%Z with false by (symmetry; apply Z.eqb_neq; lia).
      cbn. repeat split; lia.
    + destruct (s =? 1)%Z eqn:E1, (s =? 2)%Z eqn:E2';
        try (apply Z.eqb_eq in E1; apply Z.eqb_eq in E2'; lia);
        cbn; repeat split; lia.
Qed.

(** ** The months of the statistics *)

Lemma days_before_next_month (year month : Z) :
  (1 <= month <= 11)%Z ->
  (Datetime.days_before_month year (month + 1)
   = Datetime.days_before_month year month
     + Datetime.days_in_month year month)%Z.
Proof.
  intros H.
  assert (month = 1 \/ month = 2 \/ month = 3 \/ month = 4 \/ month = 5
          \/ month = 6 \/ month = 7 \/ month = 8 \/ month = 9
          \/ month = 10 \/ month = 11)%Z as Hm by lia.
  unfold Datetime.days_before_month, Datetime.days_in_month.
  destruct (Datetime.is_leap year);
    repeat (destruct Hm as [-> | Hm]; [reflexivity|]);
    subst month; reflexivity.
Qed.

Lemma days_before_next_year (year : Z) :
  (1 <= year)%Z ->
  (Datetime.days_before_year (year + 1)
   = Datetime.days_before_year year
     + (if Datetime.is_leap year then 366 else 365))%Z.
Proof.
  intros H. unfold Datetime.days_before_year, Datetime.is_leap. cbv zeta.
  replace (year + 1 - 1)%Z with (year - 1 + 1)%Z by lia.
  set (y := (year - 1)%Z). replace year with (y + 1)%Z by (unfold y; lia).
  assert (0 <= y)%Z by (unfold y; lia).
  destruct ((y + 1) mod 4 =? 0)%Z eqn:E4;
    destruct ((y + 1) mod 100 =? 0)%Z eqn:E100;
    destruct ((y + 1) mod 400 =? 0)%Z eqn:E400;
    cbn [andb orb negb];
    repeat match goal with
           | H : (_ =? _)%Z = true |- _ => apply Z.eqb_eq in H
           | H : (_ =? _)%Z = false |- _ => apply Z.eqb_neq in H
           end;
    pose proof (Z.div_mod (y + 1) 4 ltac:(lia));
    pose proof (Z.div_mod (y + 1) 100 ltac:(lia));
    pose proof (Z.div_mod (y + 1) 400 ltac:(lia));
    pose proof (Z.div_mod y 4 ltac:(lia));
    pose proof (Z.div_mod y 100 ltac:(lia));
    pose proof (Z.div_mod y 400 ltac:(lia));
    pose proof (Z.mod_pos_bound (y + 1) 4 ltac:(lia));
    pose proof (Z.mod_pos_bound (y + 1) 100 ltac:(lia));
    pose proof (Z.mod_pos_bound (y + 1) 400 ltac:(lia));
    pose proof (Z.mod_pos_bound y 4 ltac:(lia));
    pose proof (Z.mod_pos_bound y 100 ltac:(lia));
    pose proof (Z.mod_pos_bound y 400 ltac:(lia));
    lia.
Qed.

Lemma days_in_month_bounds (year month : Z) :
  (28 <= Datetime.days_in_month year month <= 31)%Z.
Proof.
  unfold Datetime.days_in_month.
  repeat match goal with
         | |- context [match ?p with _ => _ end] => destruct p
         end; lia.
Qed.

Lemma datetime_first_of_month (year month : Z) :
  (1 <= year <= 9999)%Z -> (1 <= month <= 12)%Z ->
  Datetime.datetime year month 1
  = Ok (Datetime.ymd2ord year month 1 * 86400)%Z.
Proof.
  intros Hy Hm. unfold Datetime.datetime.
  pose proof (days_in_month_bounds year month).
  replace (1 <=? year)%Z with true by (symmetry; apply Z.leb_le; lia).
  replace (year <=? 9999)%Z with true by (symmetry; apply Z.leb_le; lia).
  replace (1 <=? month)%Z with true by (symmetry; apply Z.leb_le; lia).
  replace (month <=? 12)%Z with true by (symmetry; apply Z.leb_le; lia).
  replace (1 <=? Datetime.days_in_month year month)%Z with true
    by (symmetry; apply Z.leb_le; lia).
  reflexivity.
Qed.

Lemma days_of_span (first days : Z) :
  (1 <= days)%Z ->
  (Datetime.timedelta_days ((first + days) * 86400 - 1 - first * 86400) + 1
   = days)%Z.
Proof.
  intros H. unfold Datetime.timedelta_days.
  replace ((first + days) * 86400 - 1 - first * 86400)%Z
    with ((days - 1) * 86400 + 86399)%Z by lia.
  rewrite Z.div_add_l by lia. rewrite Z.div_small by lia. lia.
Qed.

(** The first of the month that follows is as many days later as the month
    has, in December as well. *)
Lemma next_month_ordinal (year month : Z) :
  (1 <= year)%Z -> (1 <= month <= 12)%Z ->
  (let '(year', month') :=
     if (month =? 12)%Z then ((year + 1)%Z, 0%Z) else (year, month) in
   Datetime.ymd2ord year' (month' + 1) 1
   = Datetime.ymd2ord year month 1 + Datetime.days_in_month year month)%Z.
Proof.
  intros Hy Hm. destruct (month =? 12)%Z eqn:E.
  - apply Z.eqb_eq in E. subst month. unfold Datetime.ymd2ord.
    rewrite (days_before_next_year year Hy).
    unfold Datetime.days_before_month, Datetime.days_in_month.
    destruct (Datetime.is_leap year);
      change (0 + 1)%Z with 1%Z; change (2 <? 1)%Z with false;
      change (2 <? 12)%Z with true; cbn [andb]; lia.
  - apply Z.eqb_neq in E. unfold Datetime.ymd2ord.
    rewrite (days_before_next_month year month) by lia. lia.
Qed.

(** X6. The body of the loop is right for every month of the calendar,
    December included: it finds the last second of the month and counts
    the days the month has. *)
Theorem month_body_counts_days (year month : Z) :
  (1 <= year <= 9998)%Z -> (1 <= month <= 12)%Z ->
  months_loop year [month] = Ok [calendar_month year month].
Proof.
  intros Hy Hm. cbn [months_loop].
  rewrite (datetime_first_of_month year month) by lia.
  rewrite bind_Ok.
  pose proof (next_month_ordinal year month ltac:(lia) Hm) as Hnext.
  pose proof (days_in_month_bounds year month) as Hdays.
  destruct (month =? 12)%Z eqn:E.
  - rewrite (datetime_first_of_month (year + 1) (0 + 1)) by lia.
    rewrite bind_Ok. cbn [mbind result_bind mret result_ret].
    rewrite Hnext, days_of_span by lia. unfold calendar_month.
    do 3 f_equal. lia.
  - apply Z.eqb_neq in E.
    rewrite (datetime_first_of_month year (month + 1)) by lia.
    rewrite bind_Ok. cbn [mbind result_bind mret result_ret].
    rewrite Hnext, days_of_span by lia. unfold calendar_month.
    do 3 f_equal. lia.
Qed.

Lemma month_body_counts_days_witness :
  months_loop 1976 [2]%Z
  = Ok [ {| starttime_of := 62327664000; endtime_of := 62330169599;
            ndays_of := 29 |} ]%Z
  /\ months_loop 1975 [12]%Z = Ok [calendar_month 1975 12].
Proof.
  split.
  - rewrite (month_body_counts_days 1976 2) by lia. reflexivity.
  - apply (month_body_counts_days 1975 12); lia.
Defined.

Lemma months_loop_before_december (year : Z) (months : list Z) :
  (1 <= year <= 9999)%Z ->
  Forall (fun month => 1 <= month <= 11)%Z months ->
  months_loop year months = Ok (map (calendar_month year) months).
Proof.
  intros Hy H. induction H as [|month months Hm _ IH]; [reflexivity|].
  cbn [months_loop map].
  rewrite (datetime_first_of_month year month) by lia.
  rewrite bind_Ok.
  pose proof (next_month_ordinal year month ltac:(lia) ltac:(lia)) as Hnext.
  pose proof (days_in_month_bounds year month) as Hdays.
  replace (month =? 12)%Z with false in *
    by (symmetry; apply Z.eqb_neq; lia).
  rewrite (datetime_first_of_month year (month + 1)) by lia.
  rewrite bind_Ok, IH, bind_Ok. cbn [mret result_ret].
  rewrite Hnext, days_of_span by lia. unfold calendar_month.
  do 3 f_equal. lia.
Qed.

Lemma years_loop_months (years : list Z) :
  Forall (fun year => 1 <= year <= 9999)%Z years ->
  years_loop years
  = Ok (flat_map (fun year => map (calendar_month year) (py_range 1 12))
                 years).
Proof.
  intros H. induction H as [|year years Hy _ IH]; [reflexivity|].
  cbn [years_loop flat_map].
  rewrite (months_loop_before_december year (py_range 1 12) Hy).
  - rewrite bind_Ok, IH, bind_Ok. reflexivity.
  - vm_compute. repeat (apply Forall_cons_2; [split; discriminate|]).
    apply Forall_nil_2.
Qed.

(** X7. The statistics visit the months January to November of the years
    1974 to 1984, each with its right number of days, and raise nothing:
    no December is among them, and no month of 1985. *)
Theorem periods_leave_out_december :
  periods
  = Ok (flat_map
          (fun year =>
             map (calendar_month year) [1; 2; 3; 4; 5; 6; 7; 8; 9; 10; 11]%Z)
          [1974; 1975; 1976; 1977; 1978; 1979; 1980; 1981; 1982; 1983;
           1984]%Z).
Proof.
  unfold periods. rewrite years_loop_months; [reflexivity|].
  vm_compute. repeat (apply Forall_cons_2; [split; discriminate|]).
  apply Forall_nil_2.
Qed.

(** ** Cleaning a distribution *)

Lemma isfinite_zero : Np.isfinite 0 = true.
Proof. reflexivity. Qed.

(** X8. After the cleaning every density is a finite number, the array
    has the length it had, and the densities that were finite are
    unchanged. *)
Theorem zero_nonfinite_all_finite (pdf : list float) :
  Forall (fun x => Np.isfinite x = true) (zero_nonfinite pdf)
  /\ length (zero_nonfinite pdf) = length pdf
  /\ (forall (i : nat) (x : float),
        pdf !! i = Some x -> Np.isfinite x = true ->
        zero_nonfinite pdf !! i = Some x).
Proof.
  unfold zero_nonfinite. split; [|split].
  - apply Forall_map. apply Forall_forall. intros x _. cbv beta.
    destruct (Np.isfinite x) eqn:E; [exact E | exact isfinite_zero].
  - apply length_map.
  - intros i x Hi Hx. rewrite list_lookup_fmap, Hi. cbn. rewrite Hx.
    reflexivity.
Qed.

(** ** The measurement window and the choice of the field *)

Lemma fold_min_spec (l : list Z) (x : Z) :
  ((fold_left Z.min l x <= x)%Z
   /\ forall y, In y l -> (fold_left Z.min l x <= y)%Z)
  /\ (fold_left Z.min l x = x \/ In (fold_left Z.min l x) l).
Proof.
  revert x. induction l as [|a l IH]; intros x; cbn [fold_left].
  - repeat split; [lia | intros y [] | left; reflexivity].
  - destruct (IH (Z.min x a)) as ((H1 & H2) & H3). repeat split.
    + lia.
    + intros y [<- | Hy]; [lia | apply H2, Hy].
    + destruct H3 as [E | Hin]; [|right; right; exact Hin].
      rewrite E. destruct (Z.min_spec x a) as [[_ ->] | [_ ->]];
        [left; reflexivity | right; left; reflexivity].
Qed.

Lemma fold_max_spec (l : list Z) (x : Z) :
  ((x <= fold_left Z.max l x)%Z
   /\ forall y, In y l -> (y <= fold_left Z.max l x)%Z)
  /\ (fold_left Z.max l x = x \/ In (fold_left Z.max l x) l).
Proof.
  revert x. induction l as [|a l IH]; intros x; cbn [fold_left].
  - repeat split; [lia | intros y [] | left; reflexivity].
  - destruct (IH (Z.max x a)) as ((H1 & H2) & H3). repeat split.
    + lia.
    + intros y [<- | Hy]; [lia | apply H2, Hy].
    + destruct H3 as [E | Hin]; [|right; right; exact Hin].
      rewrite E. destruct (Z.max_spec x a) as [[_ ->] | [_ ->]];
        [right; left; reflexivity | left; reflexivity].
Qed.

(** X9. The measurement window runs from the start of the second of the
    lowest energy bin to the end of the second of the highest one: the
    second of every sample lies inside it, and it lasts at least one
    second. *)
Theorem measurement_window_spans_bins
    (starttime : Z) (dist : list sample) (t0 t1 : Z) :
  measurement_window starttime dist = Ok (t0, t1) ->
  (exists first last,
     In first dist /\ In last dist
     /\ t0 = (starttime + seconds (E_bin first))%Z
     /\ t1 = (starttime + seconds (E_bin last + 1))%Z)
  /\ (forall r, In r dist ->
        (t0 <= starttime + seconds (E_bin r))%Z
        /\ (starttime + seconds (E_bin r + 1) <= t1)%Z)
  /\ (t0 + seconds 1 <= t1)%Z.
Proof.
  unfold measurement_window. cbv zeta.
  destruct dist as [|r0 dist]; [discriminate|].
  cbn [map Np.min_int Np.max_int]. rewrite !bind_Ok.
  intros [= <- <-].
  destruct (fold_min_spec (map E_bin dist) (E_bin r0)) as ((Hm1 & Hm2) & Hm3).
  destruct (fold_max_spec (map E_bin dist) (E_bin r0)) as ((HM1 & HM2) & HM3).
  set (lo := fold_left Z.min (map E_bin dist) (E_bin r0)) in *.
  set (hi := fold_left Z.max (map E_bin dist) (E_bin r0)) in *.
  assert (exists first, In first (r0 :: dist) /\ lo = E_bin first)
    as (first & Hfirst & Elo).
  { destruct Hm3 as [E | Hin]; [exists r0; split; [left; reflexivity | exact E]|].
    apply in_map_iff in Hin as (r & E & Hr). exists r. split; [right; exact Hr|].
    symmetry. exact E. }
  assert (exists last, In last (r0 :: dist) /\ hi = E_bin last)
    as (last & Hlast & Ehi).
  { destruct HM3 as [E | Hin]; [exists r0; split; [left; reflexivity | exact E]|].
    apply in_map_iff in Hin as (r & E & Hr). exists r. split; [right; exact Hr|].
    symmetry. exact E. }
  split; [|split].
  - exists first, last. rewrite <- Elo, <- Ehi. auto.
  - intros r [<- | Hr]; unfold seconds.
    + lia.
    + pose proof (Hm2 (E_bin r) (in_map E_bin dist r Hr)).
      pose proof (HM2 (E_bin r) (in_map E_bin dist r Hr)). lia.
  - unfold seconds. lia.
Qed.

Lemma filter_not_nil {A} (f : A -> bool) (l : list A) :
  (exists x, In x l /\ f x = true) -> List.filter f l <> [].
Proof.
  intros (x & Hin & Hx) E.
  assert (In x (List.filter f l)) as H by (apply filter_In; auto).
  rewrite E in H. destruct H.
Qed.

Lemma filter_nil {A} (f : A -> bool) (l : list A) :
  (forall x, In x l -> f x = false) -> List.filter f l = [].
Proof.
  intros H. induction l as [|a l IH]; [reflexivity|].
  cbn [List.filter]. rewrite (H a) by (left; reflexivity).
  apply IH. intros x Hx. apply H. right. exact Hx.
Qed.

(** X10. The high-cadence series is preferred: when it has a sample
    strictly inside the window, the field is its samples inside the
    window and the source recorded is 1, whatever the low-cadence series
    holds. *)
Theorem high_cadence_preferred
    (m4 : list mag_row) (mag6s : option (list mag_row)) (t0 t1 : Z)
    (output : record) :
  (exists r, In r m4 /\ (t0 < mag_time r < t1)%Z) ->
  select_field (Some m4) mag6s t0 t1 output
  = (Some (List.filter (in_window t0 t1) m4), false,
     <["B instrument" := PyInt 1]> output).
Proof.
  intros (r & Hin & Hr). unfold select_field.
  destruct (List.filter (in_window t0 t1) m4) as [|r' rest] eqn:E.
  - exfalso. revert E. apply filter_not_nil. exists r. split; [exact Hin|].
    unfold in_window. apply andb_true_iff. split; apply Z.ltb_lt; lia.
  - destruct mag6s; reflexivity.
Qed.

(** X11. The low-cadence series is the fallback: when the high-cadence
    series is absent or has no sample strictly inside the window, and the
    low-cadence one has such a sample, the field is the low-cadence
    samples inside the window and the source recorded is 2. *)
Theorem low_cadence_fallback
    (mag4hz : option (list mag_row)) (m6 : list mag_row) (t0 t1 : Z)
    (output : record) :
  (forall m4 r, mag4hz = Some m4 -> In r m4 ->
                ~ (t0 < mag_time r < t1)%Z) ->
  (exists r, In r m6 /\ (t0 < mag_time r < t1)%Z) ->
  select_field mag4hz (Some m6) t0 t1 output
  = (Some (List.filter (in_window t0 t1) m6), false,
     <["B instrument" := PyInt 2]> output).
Proof.
  intros Hnone (r & Hin & Hr). unfold select_field.
  assert (List.filter (in_window t0 t1) m6 <> []) as H6.
  { apply filter_not_nil. exists r. split; [exact Hin|].
    unfold in_window. apply andb_true_iff. split; apply Z.ltb_lt; lia. }
  destruct mag4hz as [m4|].
  - rewrite (filter_nil (in_window t0 t1) m4).
    + cbn [is_empty].
      destruct (List.filter (in_window t0 t1) m6); [congruence | reflexivity].
    + intros x Hx. unfold in_window.
      destruct (t0 <? mag_time x)%Z eqn:E1, (mag_time x <? t1)%Z eqn:E2;
        try reflexivity.
      apply Z.ltb_lt in E1, E2. exfalso. apply (Hnone m4 x eq_refl Hx). lia.
  - destruct (List.filter (in_window t0 t1) m6); [congruence | reflexivity].
Qed.

(** ** More on the driver *)

Section MoreProperties.

Variable rotationmatrix : vec3 -> mat3.
Variable temp2vth : float -> float -> float.
Variable vth2temp : float -> float -> float.
Variable m_p : float.
Variable np_power : float -> float -> float.
Variable leastsq : params6 -> list vec3 -> list float -> params6 * Z.

Local Abbreviation setup :=
  (iondistfitting_setup rotationmatrix temp2vth m_p leastsq).
Local Abbreviation finish := (iondistfitting_finish vth2temp m_p np_power).
Local Abbreviation driver :=
  (iondistfitting rotationmatrix temp2vth vth2temp m_p np_power leastsq).

(** X12. Every status the driver returns has its message in
    [statusdict]. *)
Theorem every_status_has_message
    dist params fit_1D mag4hz mag6s starttime I1a :
  exists rec s message,
    driver dist params fit_1D mag4hz mag6s starttime I1a = Ok rec
    /\ rec !! "Status" = Some (PyInt s)
    /\ statusdict !! s = Some message.
Proof.
  destruct (driver_outcome rotationmatrix temp2vth vth2temp m_p np_power
              leastsq dist params fit_1D mag4hz mag6s starttime I1a)
    as (rec & s & E & Hs & Hin & _).
  exists rec, s. simpl in Hin.
  repeat (destruct Hin as [<- | Hin];
          [eexists; repeat split; try eassumption; vm_compute; reflexivity|]).
  destruct Hin.
Qed.

(** X13. The initial guess: the amplitude is the largest observed
    density and the two thermal speeds are equal.  Their value is the
    thermal speed of the 1-D temperature when that is a finite number
    neither below 10 nor above 100, and 40 when it is not; either way it is
    a finite number neither below 10 nor above 100. *)
Theorem initial_guess_widths_bounded
    (df : list float) (vprime : list vec3) (fit_1D : fit_1D_summary)
    (guesses : params6) :
  initial_guesses temp2vth m_p df vprime fit_1D = Ok guesses ->
  let vth_1D := temp2vth (T_p fit_1D) m_p in
  Np.max df = Ok (p_A guesses)
  /\ p_vth_par guesses = p_vth_perp guesses
  /\ (Np.isfinite vth_1D = true ->
      (vth_1D <? 10)%float = false ->
      (100 <? vth_1D)%float = false ->
      p_vth_perp guesses = vth_1D)
  /\ (Np.isfinite vth_1D = false
      \/ (vth_1D <? 10)%float = true
      \/ (100 <? vth_1D)%float = true ->
      p_vth_perp guesses = 40%float)
  /\ Np.isfinite (p_vth_perp guesses) = true
  /\ (p_vth_perp guesses <? 10)%float = false
  /\ (100 <? p_vth_perp guesses)%float = false.
Proof.
  intros H vth_1D. unfold initial_guesses in H.
  apply bind_Ok_inv in H as (Ap & EAp & H). cbv zeta in H.
  injection H as <-. cbn [p_A p_vth_perp p_vth_par]. fold vth_1D.
  split; [exact EAp|]. split; [reflexivity|].
  destruct (Np.isfinite vth_1D) eqn:Efin;
    destruct (vth_1D <? 10)%float eqn:E10;
    destruct (100 <? vth_1D)%float eqn:E100;
    cbn [negb orb];
    (split; [intros; congruence|]);
    (split; [intros [?|[?|?]]; congruence|]);
    auto.
Qed.

Lemma truncate_empty_1D (dist : list sample) : truncate dist [] = [].
Proof.
  unfold truncate. cbv zeta. cbn [map].
  change (Pd.series_max []) with nan. rewrite mul_nan_l.
  apply filter_nil. intros r _. apply leb_nan_r.
Qed.

(** X14. An empty 1-D distribution is always rejected.  Its largest speed
    is NaN, no sample is at or below it, and the driver returns status 5,
    unless one of the two gates before the truncation has returned 9; the
    test [len(I1a) != 0] of line 98 is never reached with an empty
    [I1a]. *)
Theorem empty_1D_distribution_rejected
    dist params fit_1D mag4hz mag6s starttime :
  rejected (driver dist params fit_1D mag4hz mag6s starttime [])
           (if two_distributions fit_1D || negative_counts dist
            then 9 else 5).
Proof.
  unfold iondistfitting, iondistfitting_setup. cbv zeta.
  rewrite truncate_empty_1D.
  destruct (two_distributions fit_1D); [apply return_nans_rejected|].
  destruct (negative_counts dist); apply return_nans_rejected.
Qed.

(** What the rest of the function returns, gate by gate. *)
Lemma finish_branches (l : locals) :
  ready l ->
  exists peak fp v outside,
    Np.max (l_df l) = Ok peak
    /\ spacecraft_frame (l_magempty l) (l_R l) (l_fitparams l) = Ok (fp, v)
    /\ outside_bounds v (l_vs l) [0; 1; 2]%nat = Ok outside
    /\ finish l
       = if negb (converged (l_fitstatus l))
         then return_nans (PyInt 6) (PyDatetime (l_starttime l))
                          (PyInt (l_instrument l))
         else if ((20 * peak <? p_A (l_fitparams l))%float
                  || (p_A (l_fitparams l) <? 0.1 * peak)%float)
                 && negb (l_magempty l)
         then return_nans (PyInt 11) (PyDatetime (l_starttime l))
                          (PyInt (l_instrument l))
         else if width_unrealistic (l_fitparams l) (l_magempty l)
         then return_nans (PyInt 12) (PyDatetime (l_starttime l))
                          (PyInt (l_instrument l))
         else if outside : bool
         then return_nans (PyInt 4) (PyDatetime (l_starttime l))
                          (PyInt (l_instrument l))
         else Ok (<["Instrument" := PyInt (l_instrument l)]>
                    (<["Status" := PyInt (if l_magempty l then 2 else 1)]>
                       (<["Time" := PyDatetime (l_starttime l)]>
                          (fit_dictionary vth2temp m_p np_power (l_params l)
                                          fp v "p"
                           ∪ l_output l)))).
Proof.
  intros (Hdf & Hvs & HR & _).
  destruct (Np_max_total (l_df l) Hdf) as [peak Epeak].
  destruct (spacecraft_frame_total (l_magempty l) (l_R l) (l_fitparams l) HR)
    as (fp & v & Eframe).
  destruct (outside_bounds_total v (l_vs l) [0; 1; 2]%nat Hvs)
    as [outside Eout].
  exists peak, fp, v, outside. repeat split; trivial.
  unfold iondistfitting_finish, density_unrealistic, process_fitparams.
  cbv zeta.
  destruct (negb (converged (l_fitstatus l))); [reflexivity|].
  rewrite Epeak, !bind_Ok.
  destruct (_ && negb (l_magempty l)); [reflexivity|].
  destruct (width_unrealistic _ _); [reflexivity|].
  rewrite Eframe, bind_Ok, Eout, bind_Ok.
  destruct outside; reflexivity.
Qed.

Lemma has_status_return_nans (s s' : Z) (time instrument : pyval) :
  has_status (return_nans (PyInt s) time instrument) s' <-> s = s'.
Proof.
  unfold has_status.
  change (field_of (return_nans (PyInt s) time instrument) "Status")
    with (Some (PyInt s)).
  split; [intros [= ->]; reflexivity | intros ->; reflexivity].
Qed.

Lemma has_status_success (d out : record) (instrument time : pyval)
    (s s' : Z) :
  has_status (Ok (<["Instrument" := instrument]>
                    (<["Status" := PyInt s]> (<["Time" := time]> (d ∪ out)))))
             s'
  <-> s = s'.
Proof.
  unfold has_status, field_of.
  rewrite lookup_insert_ne, lookup_insert_eq by done.
  split; [intros [= ->]; reflexivity | intros ->; reflexivity].
Qed.

(** The status of a call that returned early is one of the pre-fit ones. *)
Lemma setup_cases dist params fit_1D mag4hz mag6s starttime I1a :
  (exists s,
     In s [9; 5; 12; 10]%Z
     /\ driver dist params fit_1D mag4hz mag6s starttime I1a
        = return_nans (PyInt s) (PyDatetime starttime)
                      (PyInt (ion_instrument params)))
  \/ (exists l,
        setup dist params fit_1D mag4hz mag6s starttime I1a = Ok (inr l)
        /\ ready l
        /\ driver dist params fit_1D mag4hz mag6s starttime I1a = finish l).
Proof.
  destruct (setup_total rotationmatrix temp2vth vth2temp m_p np_power
              leastsq dist params fit_1D mag4hz mag6s starttime I1a)
    as [(s & rec & Hs & Esetup & Erec) | [l Esetup]].
  - left. exists s. split; [exact Hs|]. rewrite Erec.
    apply (driver_early rotationmatrix temp2vth vth2temp m_p np_power
             leastsq _ _ _ _ _ _ _ _ Esetup).
  - right. exists l. split; [exact Esetup|]. split.
    + apply (setup_ready rotationmatrix temp2vth vth2temp m_p np_power
               leastsq _ _ _ _ _ _ _ _ Esetup).
    + apply (driver_continues rotationmatrix temp2vth vth2temp m_p np_power
               leastsq _ _ _ _ _ _ _ _ Esetup).
Qed.

(** X15. Status 4 is returned only for a fit that converged and whose
    bulk velocity, in the spacecraft frame, lies outside the bounds of the
    sample velocities. *)
Theorem status_4_only_outside_bounds
    dist params fit_1D mag4hz mag6s starttime I1a :
  has_status (driver dist params fit_1D mag4hz mag6s starttime I1a) 4 ->
  exists l fp v,
    setup dist params fit_1D mag4hz mag6s starttime I1a = Ok (inr l)
    /\ converged (l_fitstatus l) = true
    /\ spacecraft_frame (l_magempty l) (l_R l) (l_fitparams l) = Ok (fp, v)
    /\ velocity_outside v (l_vs l).
Proof.
  intros Hst.
  destruct (setup_cases dist params fit_1D mag4hz mag6s starttime I1a)
    as [(s & Hs & E) | (l & Esetup & Hready & E)]; rewrite E in Hst.
  - apply has_status_return_nans in Hst. subst s. simpl in Hs. lia.
  - destruct (finish_branches l Hready)
      as (peak & fp & v & outside & _ & Eframe & Eout & Efin).
    rewrite Efin in Hst.
    exists l, fp, v. split; [exact Esetup|].
    destruct (converged (l_fitstatus l)); cbn [negb] in Hst;
      [|apply has_status_return_nans in Hst; discriminate].
    destruct (_ && negb (l_magempty l));
      [apply has_status_return_nans in Hst; discriminate|].
    destruct (width_unrealistic _ _);
      [apply has_status_return_nans in Hst; discriminate|].
    destruct outside.
    + repeat split; trivial.
      apply (outside_bounds_spec v (l_vs l)); [apply Hready | exact Eout].
    + apply has_status_success in Hst. destruct (l_magempty l); discriminate.
Qed.

(** X16. Status 6 is returned exactly when the samples pass the pre-fit
    gates and the solver ends with a status other than 1, 2, 3 and 4. *)
Theorem status_6_iff_solver_failed
    dist params fit_1D mag4hz mag6s starttime I1a :
  has_status (driver dist params fit_1D mag4hz mag6s starttime I1a) 6
  <-> exists l,
        setup dist params fit_1D mag4hz mag6s starttime I1a = Ok (inr l)
        /\ converged (l_fitstatus l) = false.
Proof.
  split.
  - intros Hst.
    destruct (setup_cases dist params fit_1D mag4hz mag6s starttime I1a)
      as [(s & Hs & E) | (l & Esetup & Hready & E)]; rewrite E in Hst.
    + apply has_status_return_nans in Hst. subst s. simpl in Hs. lia.
    + destruct (finish_branches l Hready)
        as (peak & fp & v & outside & _ & _ & _ & Efin).
      rewrite Efin in Hst. exists l. split; [exact Esetup|].
      destruct (converged (l_fitstatus l)); [|reflexivity].
      exfalso. cbn [negb] in Hst.
      destruct (_ && negb (l_magempty l));
        [apply has_status_return_nans in Hst; discriminate|].
      destruct (width_unrealistic _ _);
        [apply has_status_return_nans in Hst; discriminate|].
      destruct outside;
        [apply has_status_return_nans in Hst; discriminate|].
      apply has_status_success in Hst. destruct (l_magempty l); discriminate.
  - intros (l & Esetup & Hconv).
    rewrite (driver_continues rotationmatrix temp2vth vth2temp m_p np_power
               leastsq _ _ _ _ _ _ _ _ Esetup).
    unfold iondistfitting_finish. cbv zeta. rewrite Hconv.
    apply has_status_return_nans. reflexivity.
Qed.

(** Whether the set-up found a field, and what it wrote of it. *)
Lemma setup_field dist params fit_1D mag4hz mag6s starttime I1a l :
  setup dist params fit_1D mag4hz mag6s starttime I1a = Ok (inr l) ->
  (l_magempty l = true
   /\ field_rows dist I1a mag4hz mag6s starttime = None
   /\ l_output l !! "Bx" = Some py_nan
   /\ l_output l !! "By" = Some py_nan
   /\ l_output l !! "Bz" = Some py_nan
   /\ l_output l !! "sigma B" = Some py_nan)
  \/ (l_magempty l = false
      /\ (exists rows, field_rows dist I1a mag4hz mag6s starttime = Some rows)
      /\ (l_output l !! "B instrument" = Some (PyInt 1)
          \/ l_output l !! "B instrument" = Some (PyInt 2))).
Proof.
  intros Esetup.
  apply (setup_continues rotationmatrix temp2vth m_p leastsq) in Esetup
    as (_ & _ & _ & _ & _ & t0 & t1 & mag & magempty & out0 & out & R
        & vprime & guesses & Ewin & Esel & Eframe & _ & ->).
  cbn [l_output l_magempty].
  unfold field_rows. rewrite Ewin.
  pose proof (select_field_output mag4hz mag6s t0 t1 ∅
                (<["Instrument" := PyInt (ion_instrument params)]> ∅))
    as Hsel.
  rewrite Esel in Hsel.
  destruct (select_field mag4hz mag6s t0 t1 ∅) as [[mag' e'] o'].
  cbn [fst] in Hsel. injection Hsel as -> ->.
  apply (field_frame_inv rotationmatrix) in Eframe.
  destruct magempty.
  - left. destruct Eframe as (-> & _ & _).
    split; [reflexivity|]. split; [destruct mag; reflexivity|].
    repeat split; rewrite ?lookup_insert_ne by done;
      apply lookup_insert_eq.
  - right. destruct Eframe as (rows & -> & -> & _).
    split; [reflexivity|]. split; [eauto|].
    rewrite !lookup_insert_ne by done.
    assert (out0 = <["B instrument" := PyInt 1]>
                     (<["Instrument" := PyInt (ion_instrument params)]> ∅)
            \/ out0 = <["B instrument" := PyInt 2]>
                        (<["Instrument" := PyInt (ion_instrument params)]>
                           ∅)) as [-> | ->].
    { unfold select_field in Esel.
      destruct mag4hz as [m4|], mag6s as [m6|];
        repeat match type of Esel with
          | context [List.filter ?f ?m] =>
              destruct (List.filter f m) eqn:?; cbn [is_empty] in Esel
          end;
        cbv beta iota zeta in Esel; first [left; congruence | right; congruence]. }
    + left. apply lookup_insert_eq.
    + right. apply lookup_insert_eq.
Qed.

(** The record with status 1 or 2: which of the two it is. *)
Lemma success_status dist params fit_1D mag4hz mag6s starttime I1a l s :
  setup dist params fit_1D mag4hz mag6s starttime I1a = Ok (inr l) ->
  has_status (driver dist params fit_1D mag4hz mag6s starttime I1a) s ->
  s = 1%Z \/ s = 2%Z ->
  s = (if l_magempty l then 2 else 1)%Z
  /\ width_unrealistic (l_fitparams l) (l_magempty l) = false.
Proof.
  intros Esetup Hst Hs.
  rewrite (driver_continues rotationmatrix temp2vth vth2temp m_p np_power
             leastsq _ _ _ _ _ _ _ _ Esetup) in Hst.
  destruct (setup_ready rotationmatrix temp2vth vth2temp m_p np_power
              leastsq _ _ _ _ _ _ _ _ Esetup) as (Hready & _).
  destruct (finish_branches l Hready)
    as (peak & fp & v & outside & _ & _ & _ & Efin).
  rewrite Efin in Hst.
  destruct (negb (converged (l_fitstatus l)));
    [apply has_status_return_nans in Hst; lia|].
  destruct (_ && negb (l_magempty l));
    [apply has_status_return_nans in Hst; lia|].
  destruct (width_unrealistic _ _);
    [apply has_status_return_nans in Hst; lia|].
  destruct outside; [apply has_status_return_nans in Hst; lia|].
  apply has_status_success in Hst. auto.
Qed.

Lemma status_needs_setup dist params fit_1D mag4hz mag6s starttime I1a s :
  has_status (driver dist params fit_1D mag4hz mag6s starttime I1a) s ->
  s = 1%Z \/ s = 2%Z ->
  exists l, setup dist params fit_1D mag4hz mag6s starttime I1a = Ok (inr l).
Proof.
  intros Hst Hs.
  destruct (setup_cases dist params fit_1D mag4hz mag6s starttime I1a)
    as [(s' & Hs' & E) | (l & Esetup & _)]; [|eauto].
  rewrite E in Hst. apply has_status_return_nans in Hst. subst s'.
  simpl in Hs'. lia.
Qed.

(** X17. A record with status 1 never reports a thermal speed below 5:
    both reported speeds are absolute values of fitted speeds that passed
    the gate of status 12. *)
Theorem status_1_widths_not_below_5
    dist params fit_1D mag4hz mag6s starttime I1a :
  has_status (driver dist params fit_1D mag4hz mag6s starttime I1a) 1 ->
  exists w_perp w_par,
    field_of (driver dist params fit_1D mag4hz mag6s starttime I1a)
             "vth_p_perp" = Some (PyFloat w_perp)
    /\ field_of (driver dist params fit_1D mag4hz mag6s starttime I1a)
                "vth_p_par" = Some (PyFloat w_par)
    /\ (w_perp <? 5)%float = false
    /\ (w_par <? 5)%float = false.
Proof.
  intros Hst.
  destruct (status_needs_setup _ _ _ _ _ _ _ _ Hst) as [l Esetup]; [tauto|].
  destruct (success_status _ _ _ _ _ _ _ _ _ Esetup Hst) as [Hmag Hwidth];
    [tauto|].
  destruct (l_magempty l) eqn:Emag; [discriminate|].
  destruct (driver_success rotationmatrix temp2vth vth2temp m_p np_power
              leastsq _ _ _ _ _ _ _ _ _ Esetup Hst)
    as (fp & v & Eframe & Hphys & _); [tauto|].
  rewrite Emag in Eframe. unfold spacecraft_frame in Eframe.
  destruct (l_R l) as [R|]; [|discriminate].
  injection Eframe as <- <-.
  destruct (fit_dictionary_entries vth2temp m_p np_power (l_params l)
              (l_fitparams l)
              (mat_vec (transpose R)
                       (V3 (p_vbx (l_fitparams l)) (p_vby (l_fitparams l))
                           (p_vbz (l_fitparams l)))))
    as (Dperp & Dpar & _).
  unfold physical_fields in Hphys.
  repeat match goal with
         | H : Forall _ (_ :: _) |- _ => inversion_clear H
         end.
  unfold width_unrealistic in Hwidth. rewrite andb_true_r in Hwidth.
  apply orb_false_iff in Hwidth as [Hperp Hpar].
  exists (abs (p_vth_perp (l_fitparams l))), (abs (p_vth_par (l_fitparams l))).
  repeat split; try congruence; apply ltb_abs_5; assumption.
Qed.

(** X18. The status of a successful fit tells whether a field was found.
    With status 1 there were field samples in the window and the source
    recorded is 1 or 2; with status 2 there were none and the field vector
    and its spread are missing. *)
Theorem success_status_tells_field
    dist params fit_1D mag4hz mag6s starttime I1a :
  let r := driver dist params fit_1D mag4hz mag6s starttime I1a in
  (has_status r 1 ->
   (exists rows, field_rows dist I1a mag4hz mag6s starttime = Some rows)
   /\ (field_of r "B instrument" = Some (PyInt 1)
       \/ field_of r "B instrument" = Some (PyInt 2)))
  /\ (has_status r 2 ->
      field_rows dist I1a mag4hz mag6s starttime = None
      /\ field_of r "Bx" = Some py_nan
      /\ field_of r "By" = Some py_nan
      /\ field_of r "Bz" = Some py_nan
      /\ field_of r "sigma B" = Some py_nan).
Proof.
  cbv zeta. split; intros Hst.
  - destruct (status_needs_setup _ _ _ _ _ _ _ _ Hst) as [l Esetup]; [tauto|].
    destruct (success_status _ _ _ _ _ _ _ _ _ Esetup Hst) as [Hmag _];
      [tauto|].
    destruct (driver_success rotationmatrix temp2vth vth2temp m_p np_power
                leastsq _ _ _ _ _ _ _ _ _ Esetup Hst)
      as (fp & v & _ & _ & Hfield); [tauto|].
    destruct (setup_field _ _ _ _ _ _ _ _ Esetup)
      as [(Emag & _) | (_ & Hrows & Htag)].
    + rewrite Emag in Hmag. discriminate.
    + split; [exact Hrows|].
      unfold field_fields in Hfield.
      repeat match goal with
             | H : Forall _ (_ :: _) |- _ => inversion_clear H
             end.
      destruct Htag; [left | right]; congruence.
  - destruct (status_needs_setup _ _ _ _ _ _ _ _ Hst) as [l Esetup]; [tauto|].
    destruct (success_status _ _ _ _ _ _ _ _ _ Esetup Hst) as [Hmag _];
      [tauto|].
    destruct (driver_success rotationmatrix temp2vth vth2temp m_p np_power
                leastsq _ _ _ _ _ _ _ _ _ Esetup Hst)
      as (fp & v & _ & _ & Hfield); [tauto|].
    destruct (setup_field _ _ _ _ _ _ _ _ Esetup)
      as [(_ & Hrows & Hx & Hy & Hz & Hsig) | (Emag & _)].
    + split; [exact Hrows|].
      unfold field_fields in Hfield.
      repeat match goal with
             | H : Forall _ (_ :: _) |- _ => inversion_clear H
             end.
      repeat split; congruence.
    + rewrite Emag in Hmag. discriminate.
Qed.

(** The call returns early exactly when a pre-fit gate fails, with the
    status of the first that does. *)
Lemma prefit_decides dist params fit_1D mag4hz mag6s starttime I1a :
  (exists s,
     first_failing (prefit_gates dist fit_1D I1a) = Some s
     /\ driver dist params fit_1D mag4hz mag6s starttime I1a
        = return_nans (PyInt s) (PyDatetime starttime)
                      (PyInt (ion_instrument params)))
  \/ (first_failing (prefit_gates dist fit_1D I1a) = None
      /\ exists l,
          setup dist params fit_1D mag4hz mag6s starttime I1a = Ok (inr l)).
Proof.
  destruct (setup_total rotationmatrix temp2vth vth2temp m_p np_power
              leastsq dist params fit_1D mag4hz mag6s starttime I1a)
    as [(s & rec & _ & Esetup & _) | [l Esetup]].
  - left. revert Esetup.
    unfold prefit_gates, iondistfitting, iondistfitting_setup.
    cbv zeta. cbn [first_failing].
    destruct (two_distributions fit_1D); [intros _; eexists; eauto|].
    destruct (negative_counts dist); [intros _; eexists; eauto|].
    destruct (too_few_points (truncate dist I1a)); [intros _; eexists; eauto|].
    destruct (too_few_bins (truncate dist I1a)); [intros _; eexists; eauto|].
    destruct (peak_absent (truncate dist I1a) I1a) as [[|]|e];
      [intros _; eexists; eauto | |discriminate].
    rewrite bind_Ok. intros H.
    apply bind_Ok_inv in H as ([t0 t1] & _ & H).
    destruct (select_field mag4hz mag6s t0 t1 _) as [[mag magempty] out0].
    apply bind_Ok_inv in H as ([[out R] vprime] & _ & H).
    apply bind_Ok_inv in H as (guesses & _ & H).
    discriminate.
  - right. split; [|eauto].
    apply (setup_continues rotationmatrix temp2vth m_p leastsq) in Esetup
      as (E1 & E2 & E3 & E4 & E5 & _).
    unfold prefit_gates. cbv zeta. cbn [first_failing].
    rewrite E1, E2, E3, E4, E5. reflexivity.
Qed.

(** X19. Status 11 is returned only when there is a field and the fit
    converged to an amplitude above 20 times or below 0.1 times the
    largest observed density. *)
Theorem status_11_only_with_field
    dist params fit_1D mag4hz mag6s starttime I1a :
  has_status (driver dist params fit_1D mag4hz mag6s starttime I1a) 11 ->
  exists l peak,
    setup dist params fit_1D mag4hz mag6s starttime I1a = Ok (inr l)
    /\ l_magempty l = false
    /\ converged (l_fitstatus l) = true
    /\ Np.max (l_df l) = Ok peak
    /\ ((20 * peak <? p_A (l_fitparams l))%float
        || (p_A (l_fitparams l) <? 0.1 * peak)%float) = true.
Proof.
  intros Hst.
  destruct (setup_cases dist params fit_1D mag4hz mag6s starttime I1a)
    as [(s & Hs & E) | (l & Esetup & Hready & E)]; rewrite E in Hst.
  - apply has_status_return_nans in Hst. subst s. simpl in Hs. lia.
  - destruct (finish_branches l Hready)
      as (peak & fp & v & outside & Epeak & _ & _ & Efin).
    rewrite Efin in Hst. exists l, peak. split; [exact Esetup|].
    destruct (converged (l_fitstatus l)); cbn [negb] in Hst;
      [|apply has_status_return_nans in Hst; discriminate].
    destruct ((20 * peak <? p_A (l_fitparams l))%float
              || (p_A (l_fitparams l) <? 0.1 * peak)%float) eqn:Edens;
      destruct (l_magempty l) eqn:Emag; cbn [negb andb] in Hst;
      try (repeat split; trivial; fail);
      exfalso;
      (destruct (width_unrealistic _ _);
       [apply has_status_return_nans in Hst; discriminate|]);
      (destruct outside;
       [apply has_status_return_nans in Hst; discriminate|]);
      apply has_status_success in Hst; discriminate.
Qed.

(** X20. Status 12 has two origins, and no other: before the fit, fewer
    than 3 azimuth or elevation bins on samples that passed the three gates
    before; after the fit, with a field, a converged fit of plausible
    amplitude with a thermal speed below 5. *)
Theorem status_12_origins
    dist params fit_1D mag4hz mag6s starttime I1a :
  has_status (driver dist params fit_1D mag4hz mag6s starttime I1a) 12 ->
  (two_distributions fit_1D = false
   /\ negative_counts dist = false
   /\ too_few_points (truncate dist I1a) = false
   /\ too_few_bins (truncate dist I1a) = true)
  \/ (exists l,
        setup dist params fit_1D mag4hz mag6s starttime I1a = Ok (inr l)
        /\ l_magempty l = false
        /\ converged (l_fitstatus l) = true
        /\ ((p_vth_perp (l_fitparams l) <? 5)%float
            || (p_vth_par (l_fitparams l) <? 5)%float) = true).
Proof.
  intros Hst.
  destruct (prefit_decides dist params fit_1D mag4hz mag6s starttime I1a)
    as [(s & Hs & E) | (_ & l & Esetup)].
  - left. rewrite E in Hst. apply has_status_return_nans in Hst. subst s.
    revert Hs. unfold prefit_gates. cbv zeta. cbn [first_failing].
    destruct (two_distributions fit_1D); [discriminate|].
    destruct (negative_counts dist); [discriminate|].
    destruct (too_few_points (truncate dist I1a)); [discriminate|].
    destruct (too_few_bins (truncate dist I1a)); [auto|].
    destruct (peak_absent (truncate dist I1a) I1a) as [[|]|e]; discriminate.
  - right. exists l. split; [exact Esetup|].
    rewrite (driver_continues rotationmatrix temp2vth vth2temp m_p np_power
               leastsq _ _ _ _ _ _ _ _ Esetup) in Hst.
    destruct (setup_ready rotationmatrix temp2vth vth2temp m_p np_power
                leastsq _ _ _ _ _ _ _ _ Esetup) as (Hready & _).
    destruct (finish_branches l Hready)
      as (peak & fp & v & outside & _ & _ & _ & Efin).
    rewrite Efin in Hst.
    destruct (converged (l_fitstatus l)); cbn [negb] in Hst;
      [|apply has_status_return_nans in Hst; discriminate].
    destruct (_ && negb (l_magempty l));
      [apply has_status_return_nans in Hst; discriminate|].
    unfold width_unrealistic in Hst.
    destruct ((p_vth_perp (l_fitparams l) <? 5)%float
              || (p_vth_par (l_fitparams l) <? 5)%float);
      destruct (l_magempty l); cbn [negb andb] in Hst;
      try (repeat split; trivial; fail);
      exfalso;
      (destruct outside;
       [apply has_status_return_nans in Hst; discriminate|]);
      apply has_status_success in Hst; discriminate.
Qed.

(** X21. Every record, of a rejection or of a success, carries the start
    time and the instrument the driver was called with. *)
Theorem record_keeps_time_and_instrument
    dist params fit_1D mag4hz mag6s starttime I1a :
  field_of (driver dist params fit_1D mag4hz mag6s starttime I1a) "Time"
  = Some (PyDatetime starttime)
  /\ field_of (driver dist params fit_1D mag4hz mag6s starttime I1a)
              "Instrument"
     = Some (PyInt (ion_instrument params)).
Proof.
  destruct (setup_cases dist params fit_1D mag4hz mag6s starttime I1a)
    as [(s & _ & ->) | (l & Esetup & Hready & ->)].
  - split; reflexivity.
  - destruct (setup_ready rotationmatrix temp2vth vth2temp m_p np_power
                leastsq _ _ _ _ _ _ _ _ Esetup) as (_ & <- & <-).
    destruct (finish_cases rotationmatrix temp2vth vth2temp m_p np_power
                leastsq l Hready) as [(s & _ & ->) | (fp & v & _ & ->)].
    + split; reflexivity.
    + unfold field_of. split.
      * rewrite !lookup_insert_ne by done. apply lookup_insert_eq.
      * apply lookup_insert_eq.
Qed.

End MoreProperties.

(** ** The further worked cases *)

Lemma resid_zero_on_model_data_witness :
  resid Cases.np_exp Example.good_fit Cases.vs
        (map (model Cases.np_exp Example.good_fit) Cases.vs)
  = Ok [0; 0; 0; 0; 0; 0; 0; 0; 0]%float.
Proof.
  apply (resid_zero_on_model_data Cases.np_exp Example.good_fit Cases.vs).
  each_by_computation.
Defined.

Lemma measurement_window_witness :
  measurement_window Example.starttime Example.dist = Ok (0, 3000000)%Z
  /\ (forall r, In r Example.dist ->
        (0 <= Example.starttime + seconds (E_bin r))%Z
        /\ (Example.starttime + seconds (E_bin r + 1) <= 3000000)%Z).
Proof.
  split; [vm_compute; reflexivity|].
  apply (measurement_window_spans_bins Example.starttime Example.dist
           0 3000000).
  vm_compute. reflexivity.
Defined.

Lemma high_cadence_preferred_witness :
  select_field (Some Example.mag4hz) (Some Cases.mag6s) 0 3000000 ∅
  = (Some (List.filter (in_window 0 3000000) Example.mag4hz), false,
     <["B instrument" := PyInt 1]> ∅).
Proof.
  apply (high_cadence_preferred Example.mag4hz (Some Cases.mag6s)
           0 3000000 ∅).
  exists {| mag_time := 250000; Bx := 0; By := 0; Bz := 5 |}.
  split; [right; left; reflexivity | cbn; lia].
Defined.

Lemma low_cadence_fallback_witness :
  select_field (Some Cases.mag4hz_outside) (Some Cases.mag6s) 0 3000000 ∅
  = (Some (List.filter (in_window 0 3000000) Cases.mag6s), false,
     <["B instrument" := PyInt 2]> ∅).
Proof.
  apply (low_cadence_fallback (Some Cases.mag4hz_outside) Cases.mag6s
           0 3000000 ∅).
  - intros m4 r [= <-] [<- | [<- | []]]; cbn; lia.
  - exists {| mag_time := 1000000; Bx := 1; By := 0; Bz := 4 |}.
    split; [left; reflexivity | cbn; lia].
Defined.

Lemma initial_guess_witness :
  initial_guesses Example.temp2vth Example.m_p (map pdf Example.dist)
                  Cases.vs Example.fit_1D = Ok Cases.guesses
  /\ p_A Cases.guesses = 8%float
  /\ p_vth_perp Cases.guesses = Example.temp2vth 50000 Example.m_p
  /\ initial_guesses Example.temp2vth Example.m_p (map pdf Example.dist)
                     Cases.vs Cases.hot_fit_1D = Ok Cases.hot_guesses
  /\ (100 <? Example.temp2vth 1e7 Example.m_p)%float = true
  /\ p_vth_perp Cases.hot_guesses = 40%float.
Proof.
  assert (initial_guesses Example.temp2vth Example.m_p (map pdf Example.dist)
                          Cases.vs Example.fit_1D = Ok Cases.guesses) as E
    by (vm_compute; reflexivity).
  assert (initial_guesses Example.temp2vth Example.m_p (map pdf Example.dist)
                          Cases.vs Cases.hot_fit_1D = Ok Cases.hot_guesses)
    as Ehot by (vm_compute; reflexivity).
  assert ((100 <? Example.temp2vth 1e7 Example.m_p)%float = true) as Hhot
    by (vm_compute; reflexivity).
  split; [exact E|].
  split; [vm_compute; reflexivity|].
  split.
  { destruct (initial_guess_widths_bounded Example.temp2vth Example.m_p
                (map pdf Example.dist) Cases.vs Example.fit_1D Cases.guesses
                E)
      as (_ & _ & H & _).
    apply H; vm_compute; reflexivity. }
  split; [exact Ehot|].
  split; [exact Hhot|].
  destruct (initial_guess_widths_bounded Example.temp2vth Example.m_p
              (map pdf Example.dist) Cases.vs Cases.hot_fit_1D
              Cases.hot_guesses Ehot)
    as (_ & _ & _ & H & _).
  apply H. right. right. exact Hhot.
Defined.

Lemma status_4_witness :
  has_status (Example.run (Some Example.mag4hz) None Example.far_fit 1) 4
  /\ exists l fp v,
       Example.set_up (Some Example.mag4hz) None Example.far_fit 1
       = Ok (inr l)
       /\ converged (l_fitstatus l) = true
       /\ spacecraft_frame (l_magempty l) (l_R l) (l_fitparams l)
          = Ok (fp, v)
       /\ velocity_outside v (l_vs l).
Proof.
  assert (has_status
            (Example.run (Some Example.mag4hz) None Example.far_fit 1) 4)
    as H by (vm_compute; reflexivity).
  split; [exact H|].
  unfold Example.run in H. unfold Example.set_up.
  exact (status_4_only_outside_bounds Example.rotationmatrix
           Example.temp2vth Example.vth2temp Example.m_p Example.np_power
           (Example.solver Example.far_fit 1)
           Example.dist Example.params Example.fit_1D
           (Some Example.mag4hz) None Example.starttime Example.I1a H).
Defined.

Lemma status_1_widths_witness :
  has_status (Example.run (Some Example.mag4hz) None Example.good_fit 1) 1
  /\ exists w_perp w_par,
       field_of (Example.run (Some Example.mag4hz) None Example.good_fit 1)
                "vth_p_perp" = Some (PyFloat w_perp)
       /\ field_of (Example.run (Some Example.mag4hz) None
                                Example.good_fit 1)
                   "vth_p_par" = Some (PyFloat w_par)
       /\ (w_perp <? 5)%float = false
       /\ (w_par <? 5)%float = false.
Proof.
  assert (has_status
            (Example.run (Some Example.mag4hz) None Example.good_fit 1) 1)
    as H by (vm_compute; reflexivity).
  split; [exact H|].
  unfold Example.run in *.
  exact (status_1_widths_not_below_5 Example.rotationmatrix
           Example.temp2vth Example.vth2temp Example.m_p Example.np_power
           (Example.solver Example.good_fit 1)
           Example.dist Example.params Example.fit_1D
           (Some Example.mag4hz) None Example.starttime Example.I1a H).
Defined.

Lemma status_11_witness :
  has_status (Example.run (Some Example.mag4hz) None Example.wild_fit 1) 11
  /\ exists l peak,
       Example.set_up (Some Example.mag4hz) None Example.wild_fit 1
       = Ok (inr l)
       /\ l_magempty l = false
       /\ converged (l_fitstatus l) = true
       /\ Np.max (l_df l) = Ok peak
       /\ ((20 * peak <? p_A (l_fitparams l))%float
           || (p_A (l_fitparams l) <? 0.1 * peak)%float) = true.
Proof.
  assert (has_status
            (Example.run (Some Example.mag4hz) None Example.wild_fit 1) 11)
    as H by (vm_compute; reflexivity).
  split; [exact H|].
  unfold Example.run in H. unfold Example.set_up.
  exact (status_11_only_with_field Example.rotationmatrix
           Example.temp2vth Example.vth2temp Example.m_p Example.np_power
           (Example.solver Example.wild_fit 1)
           Example.dist Example.params Example.fit_1D
           (Some Example.mag4hz) None Example.starttime Example.I1a H).
Defined.

Lemma status_12_witness :
  has_status (Example.run (Some Example.mag4hz) None Cases.narrow_fit 1) 12
  /\ exists l,
       Example.set_up (Some Example.mag4hz) None Cases.narrow_fit 1
       = Ok (inr l)
       /\ l_magempty l = false
       /\ converged (l_fitstatus l) = true
       /\ ((p_vth_perp (l_fitparams l) <? 5)%float
           || (p_vth_par (l_fitparams l) <? 5)%float) = true.
Proof.
  assert (has_status
            (Example.run (Some Example.mag4hz) None Cases.narrow_fit 1) 12)
    as H by (vm_compute; reflexivity).
  split; [exact H|].
  unfold Example.run in H. unfold Example.set_up.
  destruct (status_12_origins Example.rotationmatrix
              Example.temp2vth Example.vth2temp Example.m_p Example.np_power
              (Example.solver Cases.narrow_fit 1)
              Example.dist Example.params Example.fit_1D
              (Some Example.mag4hz) None Example.starttime Example.I1a H)
    as [(_ & _ & _ & Hbins) | Hfit].
  - vm_compute in Hbins. discriminate.
  - exact Hfit.
Defined.
